(** * Private chat: the gating policy of the master/client component

    A shallow embedding of [src/pC.js] (the React component [App] of the
    master/client chat) together with the part of the hosted services it
    calls: the document store (collections of message documents, status
    documents, batched writes), the sign-in service, the browser timers and
    the console.

    The handlers of the component are [async] functions with [try]/[catch];
    they are embedded in a state-and-exception monad [Js] over a [World]
    that holds the component state next to the services.  A handler reads
    the state variables of its render once, when it starts, and runs to
    completion: the interleaving of two handlers at an [await] is outside
    the model.  Every request to the store may be rejected; the world
    carries the fate of the coming requests.

    Text is modelled by [string] over the ASCII alphabet; the counter
    [msgCount] is a JavaScript number that only ever holds small integers
    and is modelled by [Z]; times are milliseconds in [N].

    The query of the chat listener (lines 163-173) is answered by the
    store, not by the component; [runQuery] models that answer.  Left out:
    scrolling, the formatting of timestamps, and the markup itself, of
    which only the conditions that decide whether the form is there and
    enabled are kept. *)

From stdpp Require Import gmap strings list fin_maps sorting.
From Stdlib Require Import ZArith Lia Ascii String.

Local Open Scope string_scope.

(** ** Strings: [String.prototype.trim] and [toUpperCase] *)

(** White space and line terminators of the ASCII range: TAB, LF, VT, FF,
    CR and SPACE. *)
Definition isWhiteSpace (c : ascii) : bool :=
  let n := nat_of_ascii c in
  (Nat.leb 9 n && Nat.leb n 13) || Nat.eqb n 32.

Fixpoint trimStart (s : string) : string :=
  match s with
  | EmptyString => EmptyString
  | String c r => if isWhiteSpace c then trimStart r else s
  end.

Fixpoint trimEnd (s : string) : string :=
  match s with
  | EmptyString => EmptyString
  | String c r =>
      match trimEnd r with
      | EmptyString => if isWhiteSpace c then EmptyString else String c EmptyString
      | r' => String c r'
      end
  end.

Definition trim (s : string) : string := trimEnd (trimStart s).

Definition upperChar (c : ascii) : ascii :=
  let n := nat_of_ascii c in
  if Nat.leb 97 n && Nat.leb n 122 then ascii_of_nat (n - 32) else c.

Fixpoint toUpperCase (s : string) : string :=
  match s with
  | EmptyString => EmptyString
  | String c r => String (upperChar c) (toUpperCase r)
  end.

(** JavaScript truthiness of a value that is [null] or a string: [!x]. *)
Definition falsy (x : option string) : bool :=
  match x with
  | None => true
  | Some s => String.eqb s ""
  end.

(** [a || b] on such values. *)
Definition orElse (a b : option string) : option string :=
  if falsy a then b else a.

(** A template literal splices the text of a value; [null] reads "null". *)
Definition splice (x : option string) : string :=
  match x with
  | None => "null"
  | Some s => s
  end.

(** ** Configuration *)

Definition HARDCODED_CLIENT_ID : string := "client_user_12345".
Definition SPECIAL_CODE : string := "UNLOCK123".
Definition MAX_MESSAGES_BEFORE_LOCK : Z := 3.

Inductive Role : Type := master | client.

#[global] Instance Role_eq_dec : EqDecision Role.
Proof. solve_decision. Defined.

(** Lines 113-124, the role computed from the signed-in identity. *)
Definition resolveRole (uid : string) : Role :=
  if String.eqb uid HARDCODED_CLIENT_ID then client else master.

(** ** Documents *)

Record Message : Type := mkMessage
  { text : string;
    senderId : string;
    timestamp : N }.

Record ClientStatus : Type := mkStatus
  { isLoggedIn : bool;
    msgCount : Z;
    lastLogin : option N;
    forceLogout : bool }.

(** The state a session holds before any snapshot arrived, and when the
    status document does not exist (lines 79 and 157). *)
Definition noStatus : ClientStatus :=
  {| isLoggedIn := false; msgCount := 0; lastLogin := None; forceLogout := false |}.

(** [{ ...status, msgCount: n }] *)
Definition withCount (s : ClientStatus) (n : Z) : ClientStatus :=
  {| isLoggedIn := isLoggedIn s; msgCount := n;
     lastLogin := lastLogin s; forceLogout := forceLogout s |}.

(** [{ ...status, forceLogout: b }], what [updateDoc] leaves. *)
Definition withForce (s : ClientStatus) (b : bool) : ClientStatus :=
  {| isLoggedIn := isLoggedIn s; msgCount := msgCount s;
     lastLogin := lastLogin s; forceLogout := b |}.

(** [setDoc(ref, data, { merge: true })]: the fields present in [data]
    replace those of the document, the others stay.  Only [lastLogin] can
    be missing from [data]. *)
Definition mergeStatus (old : option ClientStatus) (data : ClientStatus) : ClientStatus :=
  match old with
  | None => data
  | Some o =>
      {| isLoggedIn := isLoggedIn data; msgCount := msgCount data;
         lastLogin := match lastLogin data with
                      | Some t => Some t
                      | None => lastLogin o
                      end;
         forceLogout := forceLogout data |}
  end.

(** ** The document store

    A collection holds message documents under generated identifiers, in
    the order they were added; status documents are addressed by path. *)

Record Firestore : Type := mkStore
  { collections : gmap string (list (nat * Message));
    documents : gmap string ClientStatus;
    nextDocId : nat }.

Definition docsAt (fs : Firestore) (path : string) : list (nat * Message) :=
  default [] (collections fs !! path).

(** The texts of the message documents of a collection, oldest first. *)
Definition messagesAt (fs : Firestore) (path : string) : list Message :=
  snd <$> docsAt fs path.

Inductive WriteOp : Type :=
  | SetNew (coll : string) (data : Message)
  | SetStatus (path : string) (data : ClientStatus) (merge : bool)
  | UpdateForce (path : string) (b : bool)
  | DeleteDoc (coll : string) (id : nat)
  | DeleteStatus (path : string).

(** The effect of one write; [None] when the store refuses it
    ([updateDoc] on a document that does not exist). *)
Definition applyWrite (fs : Firestore) (wr : WriteOp) : option Firestore :=
  match wr with
  | SetNew coll data =>
      Some {| collections :=
                <[coll := (docsAt fs coll ++ [(nextDocId fs, data)])%list]> (collections fs);
              documents := documents fs;
              nextDocId := S (nextDocId fs) |}
  | SetStatus path data merge =>
      Some {| collections := collections fs;
              documents :=
                <[path := if merge then mergeStatus (documents fs !! path) data
                          else data]> (documents fs);
              nextDocId := nextDocId fs |}
  | UpdateForce path b =>
      match documents fs !! path with
      | Some old =>
          Some {| collections := collections fs;
                  documents := <[path := withForce old b]> (documents fs);
                  nextDocId := nextDocId fs |}
      | None => None
      end
  | DeleteDoc coll id =>
      Some {| collections :=
                <[coll := filter (fun d => fst d ≠ id) (docsAt fs coll)]> (collections fs);
              documents := documents fs;
              nextDocId := nextDocId fs |}
  | DeleteStatus path =>
      Some {| collections := collections fs;
              documents := delete path (documents fs);
              nextDocId := nextDocId fs |}
  end.

(** A batch takes effect as a whole or not at all. *)
Fixpoint applyBatch (fs : Firestore) (batch : list WriteOp) : option Firestore :=
  match batch with
  | [] => Some fs
  | wr :: rest =>
      match applyWrite fs wr with
      | Some fs' => applyBatch fs' rest
      | None => None
      end
  end.

(** ** The component state (lines 73-90) *)

Record Modal : Type := mkModal
  { isOpen : bool;
    title : string;
    message : string }.

Record App : Type := mkApp
  { db : bool;                       (* the store handle is set *)
    auth : bool;                     (* the sign-in handle is set *)
    userId : option string;
    userRole : option Role;
    newMessage : string;
    clientStatus : ClientStatus;
    loading : bool;
    isTouching : bool;
    modal : Modal;
    touchTimerRef : option nat }.

(** Line 88: both roles read their own identity as [masterId]. *)
Definition masterId (a : App) : option string :=
  match userRole a with
  | Some master => userId a
  | Some client => userId a
  | None => None
  end.

(** What a [handleLogout] closure has captured from its render
    (the dependencies of its [useCallback], line 254). *)
Record Closure : Type := mkClosure
  { c_auth : bool;
    c_db : bool;
    c_userId : option string;
    c_masterId : option string }.

Definition closureOf (a : App) : Closure :=
  {| c_auth := auth a; c_db := db a; c_userId := userId a; c_masterId := masterId a |}.

Record Timer : Type := mkTimer
  { timerId : nat;
    due : N;
    env : Closure }.

Inductive Error : Type :=
  | ReferenceError (name : string)
  | StoreError (msg : string).

Definition errorMessage (e : Error) : string :=
  match e with
  | ReferenceError name => name +:+ " is not defined"
  | StoreError msg => msg
  end.

Inductive ConsoleLine : Type :=
  | Logged (s : string)
  | Failed (s : string) (e : Error).

(** ** The world: the component and the services around it *)

Record World : Type := mkWorld
  { app : App;
    firestore : Firestore;
    currentUser : option string;     (* the sign-in service *)
    clock : N;                       (* milliseconds *)
    timers : list Timer;             (* pending, in the order they were set *)
    nextTimerId : nat;
    faults : list (option string);   (* fate of the coming store requests:
                                        [Some msg] rejects with [msg] *)
    console : list ConsoleLine }.    (* newest first *)

Definition withApp (w : World) (a : App) : World :=
  mkWorld a (firestore w) (currentUser w) (clock w) (timers w) (nextTimerId w)
          (faults w) (console w).
Definition withStore (w : World) (fs : Firestore) : World :=
  mkWorld (app w) fs (currentUser w) (clock w) (timers w) (nextTimerId w)
          (faults w) (console w).
Definition withUser (w : World) (u : option string) : World :=
  mkWorld (app w) (firestore w) u (clock w) (timers w) (nextTimerId w)
          (faults w) (console w).
Definition withClock (w : World) (t : N) : World :=
  mkWorld (app w) (firestore w) (currentUser w) t (timers w) (nextTimerId w)
          (faults w) (console w).
Definition withTimers (w : World) (ts : list Timer) (next : nat) : World :=
  mkWorld (app w) (firestore w) (currentUser w) (clock w) ts next
          (faults w) (console w).
Definition withFaults (w : World) (fl : list (option string)) : World :=
  mkWorld (app w) (firestore w) (currentUser w) (clock w) (timers w) (nextTimerId w)
          fl (console w).
Definition withConsole (w : World) (c : list ConsoleLine) : World :=
  mkWorld (app w) (firestore w) (currentUser w) (clock w) (timers w) (nextTimerId w)
          (faults w) c.

(** ** The monad of handlers *)

Inductive Completion (A : Type) : Type :=
  | Normal (a : A)
  | Thrown (e : Error).
Arguments Normal {A} a.
Arguments Thrown {A} e.

Definition Js (A : Type) : Type := World -> Completion A * World.

Definition ret {A : Type} (a : A) : Js A := fun w => (Normal a, w).

Definition bind {A B : Type} (m : Js A) (k : A -> Js B) : Js B :=
  fun w =>
    match m w with
    | (Normal a, w') => k a w'
    | (Thrown e, w') => (Thrown e, w')
    end.

Definition throw {A : Type} (e : Error) : Js A := fun w => (Thrown e, w).

(** [try { body } catch (error) { handler }] *)
Definition tryCatch {A : Type} (body : Js A) (handler : Error -> Js A) : Js A :=
  fun w =>
    match body w with
    | (Normal a, w') => (Normal a, w')
    | (Thrown e, w') => handler e w'
    end.

(** A call that is not awaited: what it throws is lost to the caller. *)
Definition detached (m : Js unit) : Js unit :=
  tryCatch m (fun _ => ret tt).

Definition getWorld : Js World := fun w => (Normal w, w).
Definition modify (f : World -> World) : Js unit := fun w => (Normal tt, f w).

Declare Scope js_scope.
Delimit Scope js_scope with js.
Notation "x <- m ;; k" := (bind m (fun x => k))
  (at level 100, m at next level, right associativity) : js_scope.
Notation "m ;; k" := (bind m (fun _ => k))
  (at level 100, right associativity) : js_scope.
Local Open Scope js_scope.

(** [call(); rest] where [call] is an [async] function that is not awaited
    and whose effects all lie behind its first [await]: the caller goes on
    with [rest], the effects of [call] follow. *)
Definition unawaited (call rest : Js unit) : Js unit :=
  rest ;; detached call.

(** The world a handler leaves, and how it completed. *)
Definition after {A : Type} (m : Js A) (w : World) : World := snd (m w).
Definition completion {A : Type} (m : Js A) (w : World) : Completion A := fst (m w).

(** ** Primitive effects *)

Definition setApp (f : App -> App) : Js unit :=
  modify (fun w => withApp w (f (app w))).

(** The component state with one variable replaced. *)
Definition withUserId (v : option string) (a : App) : App :=
  mkApp (db a) (auth a) v (userRole a) (newMessage a) (clientStatus a)
        (loading a) (isTouching a) (modal a) (touchTimerRef a).
Definition withUserRole (v : option Role) (a : App) : App :=
  mkApp (db a) (auth a) (userId a) v (newMessage a) (clientStatus a)
        (loading a) (isTouching a) (modal a) (touchTimerRef a).
Definition withNewMessage (v : string) (a : App) : App :=
  mkApp (db a) (auth a) (userId a) (userRole a) v (clientStatus a)
        (loading a) (isTouching a) (modal a) (touchTimerRef a).
Definition withClientStatus (v : ClientStatus) (a : App) : App :=
  mkApp (db a) (auth a) (userId a) (userRole a) (newMessage a) v
        (loading a) (isTouching a) (modal a) (touchTimerRef a).
Definition withLoading (v : bool) (a : App) : App :=
  mkApp (db a) (auth a) (userId a) (userRole a) (newMessage a) (clientStatus a)
        v (isTouching a) (modal a) (touchTimerRef a).
Definition withIsTouching (v : bool) (a : App) : App :=
  mkApp (db a) (auth a) (userId a) (userRole a) (newMessage a) (clientStatus a)
        (loading a) v (modal a) (touchTimerRef a).
Definition withModal (v : Modal) (a : App) : App :=
  mkApp (db a) (auth a) (userId a) (userRole a) (newMessage a) (clientStatus a)
        (loading a) (isTouching a) v (touchTimerRef a).
Definition withTouchTimerRef (v : option nat) (a : App) : App :=
  mkApp (db a) (auth a) (userId a) (userRole a) (newMessage a) (clientStatus a)
        (loading a) (isTouching a) (modal a) v.

Definition setUserId (v : option string) : Js unit := setApp (withUserId v).
Definition setUserRole (v : option Role) : Js unit := setApp (withUserRole v).
Definition setNewMessage (v : string) : Js unit := setApp (withNewMessage v).
Definition setClientStatus (v : ClientStatus) : Js unit := setApp (withClientStatus v).
Definition setLoading (v : bool) : Js unit := setApp (withLoading v).
Definition setIsTouching (v : bool) : Js unit := setApp (withIsTouching v).
Definition setModal (v : Modal) : Js unit := setApp (withModal v).
Definition setTouchTimerRef (v : option nat) : Js unit := setApp (withTouchTimerRef v).

Definition consoleLog (s : string) : Js unit :=
  modify (fun w => withConsole w (Logged s :: console w)).
Definition consoleError (s : string) (e : Error) : Js unit :=
  modify (fun w => withConsole w (Failed s e :: console w)).

(** [new Date()] *)
Definition now : Js N := fun w => (Normal (clock w), w).

(** [setTimeout(callback, delay)]; every callback of this component is the
    one of [handleTouchStart], so a timer records the closure only. *)
Definition setTimeout (cl : Closure) (delay : N) : Js nat :=
  fun w =>
    (Normal (nextTimerId w),
     withTimers w (timers w ++ [mkTimer (nextTimerId w) (clock w + delay)%N cl])%list
                (S (nextTimerId w))).

(** [clearTimeout(id)]; an unknown or [null] identifier is ignored. *)
Definition clearTimeout (id : option nat) : Js unit :=
  match id with
  | None => ret tt
  | Some i =>
      modify (fun w => withTimers w (filter (fun t => timerId t ≠ i) (timers w))
                                  (nextTimerId w))
  end.

(** *** Requests to the store *)

(** The bindings of the module for the store functions: the names imported
    from 'firebase/firestore' (lines 4-19).  Evaluating an identifier that
    is not bound throws a [ReferenceError]. *)
Definition firestoreImports : list string :=
  [ "getFirestore"; "collection"; "query"; "orderBy"; "limit"; "onSnapshot";
    "addDoc"; "doc"; "setDoc"; "updateDoc"; "getDoc"; "deleteDoc"; "where";
    "writeBatch" ].

Definition identifier {A : Type} (name : string) (value : Js A) : Js A :=
  if existsb (String.eqb name) firestoreImports then value
  else throw (ReferenceError name).

(** One write request: the head of [faults] decides whether the store is
    reached; a batch it refuses leaves no trace. *)
Definition request (batch : list WriteOp) : Js unit :=
  fun w =>
    match faults w with
    | Some msg :: rest => (Thrown (StoreError msg), withFaults w rest)
    | fate =>
        match applyBatch (firestore w) batch with
        | Some fs => (Normal tt, withStore (withFaults w (tail fate)) fs)
        | None => (Thrown (StoreError "not-found"), withFaults w (tail fate))
        end
    end.

(** One read request for the documents of a collection. *)
Definition fetch (coll : string) : Js (list (nat * Message)) :=
  fun w =>
    match faults w with
    | Some msg :: rest => (Thrown (StoreError msg), withFaults w rest)
    | fate => (Normal (docsAt (firestore w) coll), withFaults w (tail fate))
    end.

Definition addDoc (coll : string) (data : Message) : Js unit :=
  identifier "addDoc" (request [SetNew coll data]).
Definition setDoc (path : string) (data : ClientStatus) (merge : bool) : Js unit :=
  identifier "setDoc" (request [SetStatus path data merge]).
Definition updateDoc (path : string) (force : bool) : Js unit :=
  identifier "updateDoc" (request [UpdateForce path force]).
Definition deleteDoc (path : string) : Js unit :=
  identifier "deleteDoc" (request [DeleteStatus path]).
Definition getDocs (coll : string) : Js (list (nat * Message)) :=
  identifier "getDocs" (fetch coll).
(** [writeBatch(db)] gives an empty batch; [batch.commit()] sends it. *)
Definition writeBatch : Js (list WriteOp) :=
  identifier "writeBatch" (ret []).
Definition commit (batch : list WriteOp) : Js unit := request batch.

(** [x === s] for [x] a string or [null]. *)
Definition isString (x : option string) (s : string) : bool :=
  match x with
  | Some u => String.eqb u s
  | None => false
  end.

Definition isRole (x : option Role) (r : Role) : bool :=
  bool_decide (x = Some r).

(** ** The component [App] *)

Section App.

(** [appId] comes from the hosting page (line 22).  The texts of the
    dialogs are localized; they are kept as parameters. *)
Variable appId : string.
Variable limitReachedText : string.
Variable sendErrorText : string.
Variable forceSentText : string.
Variable forceErrorText : string.

(** Lines 37-38. *)
Definition getChatCollectionPath (mId cId : option string) : string :=
  "/artifacts/" +:+ appId +:+ "/public/data/chats/" +:+ splice mId +:+ "_"
    +:+ splice cId +:+ "/messages".

(** Lines 41-42. *)
Definition getStatusDocPath (uid : option string) : string :=
  "artifacts/" +:+ appId +:+ "/public/data/users/" +:+ splice uid.

(** Lines 113-124, the callback of [onAuthStateChanged]. *)
Definition authStateChanged (user : option string) : Js unit :=
  match user with
  | Some uid =>
      setUserId (Some uid) ;;
      setUserRole (Some (resolveRole uid))
  | None =>
      setUserId None ;;
      setUserRole None
  end ;;
  setLoading false.

(** [signOut(auth)]: the service forgets the user and tells the listener. *)
Definition signOut : Js unit :=
  modify (fun w => withUser w None) ;;
  authStateChanged None.

(** Lines 220-240. *)
Definition deleteClientChatData (mId cId : option string) (database : bool) : Js unit :=
  if negb database || falsy mId || falsy cId then ret tt
  else
    let chatPath := getChatCollectionPath mId cId in
    tryCatch
      (docs <- getDocs chatPath ;;
       (if Nat.ltb 0 (List.length docs) then
          batch <- writeBatch ;;
          commit (batch ++ List.map (fun d => DeleteDoc chatPath (fst d)) docs)%list
        else ret tt) ;;
       (* Also delete the client's main status document *)
       deleteDoc (getStatusDocPath cId))
      (fun error => consoleError "Error deleting client chat data:" error).

(** Lines 243-254; the closure carries [auth], [db], [userId], [masterId]. *)
Definition handleLogout (cl : Closure) : Js unit :=
  (if c_auth cl then
     signOut ;;
     if c_db cl && isString (c_userId cl) HARDCODED_CLIENT_ID then
       deleteClientChatData (orElse (c_masterId cl) (c_userId cl)) (c_userId cl) (c_db cl) ;;
       consoleLog "Client successfully logged out and data deleted."
     else ret tt
   else ret tt) ;;
  setUserId None ;;
  setUserRole None.

(** Lines 144-158, the callback of the status listener; [docSnap] is the
    data of the document, [None] when it does not exist.  [handleLogout]
    is called without [await]: it stops at [await signOut(auth)] and the
    callback logs its line first. *)
Definition statusSnapshot (docSnap : option ClientStatus) : Js unit :=
  w <- getWorld ;;
  let a := app w in
  match docSnap with
  | Some status =>
      setClientStatus status ;;
      if isRole (userRole a) client && forceLogout status then
        unawaited (handleLogout (closureOf a))
                  (consoleLog "Master initiated forced logout.")
      else ret tt
  | None => setClientStatus noStatus
  end.

(** The listener is subscribed while [db], [userId] and [masterId] are set
    (line 139) and is handed the status document of the client. *)
Definition observeStatus : Js unit :=
  w <- getWorld ;;
  let a := app w in
  if negb (db a) || falsy (userId a) || falsy (masterId a) then ret tt
  else statusSnapshot (documents (firestore w) !! getStatusDocPath (Some HARDCODED_CLIENT_ID)).

(** Lines 188-216. *)
Definition handleLogin : Js unit :=
  w <- getWorld ;;
  let a := app w in
  if negb (db a) || falsy (userId a) then ret tt
  else
    let statusDocRef := getStatusDocPath (userId a) in
    batch <- writeBatch ;;
    batch <-
      (if isRole (userRole a) client then
         t <- now ;;
         let batch :=
           (batch ++ [SetStatus statusDocRef
                        {| isLoggedIn := true; msgCount := 0;
                           lastLogin := Some t; forceLogout := false |} false])%list in
         deleteClientChatData (masterId a) (userId a) (db a) ;;
         consoleLog "Client chat data reset/deleted on successful login." ;;
         ret batch
       else ret batch) ;;
    tryCatch
      (commit batch ;;
       consoleLog "Login status updated.")
      (fun e => consoleError "Error during login status update:" e).

(** Lines 257-312.  The two early returns of the client branch (lines 273
    and 286) are the first two cases; [e.preventDefault()] touches nothing
    of the world. *)
Definition handleSendMessage : Js unit :=
  w <- getWorld ;;
  let a := app w in
  if negb (db a) || falsy (userId a) || String.eqb (trim (newMessage a)) ""
     || falsy (masterId a)
  then ret tt
  else
    let trimmedMessage := trim (newMessage a) in
    let chatCollectionRef := getChatCollectionPath (masterId a) (Some HARDCODED_CLIENT_ID) in
    let statusDocRef := getStatusDocPath (Some HARDCODED_CLIENT_ID) in
    if isRole (userRole a) client
       && (MAX_MESSAGES_BEFORE_LOCK <=? msgCount (clientStatus a))%Z
    then
      setModal {| isOpen := true; title := "Message Limit Reached";
                  message := limitReachedText |}
    else if isRole (userRole a) client
            && String.eqb (toUpperCase trimmedMessage) SPECIAL_CODE
    then
      setDoc statusDocRef (withCount (clientStatus a) 0) true ;;
      setNewMessage "" ;;
      t <- now ;;
      addDoc chatCollectionRef
             {| text := "Master: Code received. Client message counter reset.";
                senderId := "SYSTEM";
                timestamp := t |}
    else
      batch <- writeBatch ;;
      t <- now ;;
      let batch :=
        (batch ++ [SetNew chatCollectionRef
                     {| text := trimmedMessage; senderId := splice (userId a);
                        timestamp := t |}])%list in
      let batch :=
        if isRole (userRole a) client then
          let newCount := (msgCount (clientStatus a) + 1)%Z in
          (batch ++ [SetStatus statusDocRef (withCount (clientStatus a) newCount) true])%list
        else batch in
      tryCatch
        (commit batch ;;
         setNewMessage "")
        (fun error =>
           setModal {| isOpen := true; title := "Error";
                       message := sendErrorText +:+ errorMessage error |}).

(** Lines 316-324. *)
Definition handleTouchStart : Js unit :=
  w <- getWorld ;;
  let a := app w in
  if negb (isRole (userRole a) client) then ret tt
  else
    setIsTouching true ;;
    id <- setTimeout (closureOf a) 3000%N ;;
    setTouchTimerRef (Some id).

(** Lines 327-331. *)
Definition handleTouchEnd : Js unit :=
  w <- getWorld ;;
  let a := app w in
  if negb (isRole (userRole a) client) then ret tt
  else
    clearTimeout (touchTimerRef a) ;;
    setIsTouching false.

(** Lines 334-348. *)
Definition handleMasterForceLogout : Js unit :=
  w <- getWorld ;;
  let a := app w in
  if negb (isRole (userRole a) master) || negb (db a) then ret tt
  else
    tryCatch
      (updateDoc (getStatusDocPath (Some HARDCODED_CLIENT_ID)) true ;;
       setModal {| isOpen := true; title := "Client Logout Initiated";
                   message := forceSentText |})
      (fun error =>
         setModal {| isOpen := true; title := "Error";
                     message := forceErrorText +:+ errorMessage error |}).

(** *** The timer of [handleTouchStart] and the passing of time *)

(** Lines 320-323, the callback handed to [setTimeout]. *)
Definition touchTimerExpired (cl : Closure) : Js unit :=
  consoleLog "Touch timer expired. Initiating auto-logout." ;;
  unawaited (handleLogout cl) (ret tt).

(** The timers of [ts] that are due by [target] fire, each once, in the
    order they were set (all have the same delay, so that is the order of
    their deadlines); the others stay pending. *)
Fixpoint fireDue (target : N) (ts : list Timer) : Js unit :=
  match ts with
  | [] => ret tt
  | t :: rest =>
      (if N.leb (due t) target then
         modify (fun w => withClock
                            (withTimers w (filter (fun u => timerId u ≠ timerId t) (timers w))
                                        (nextTimerId w))
                            (N.max (clock w) (due t))) ;;
         detached (touchTimerExpired (env t))
       else ret tt) ;;
      fireDue target rest
  end.

(** [ms] milliseconds pass. *)
Definition elapse (ms : N) : Js unit :=
  w <- getWorld ;;
  let target := (clock w + ms)%N in
  fireDue target (timers w) ;;
  modify (fun w' => withClock w' target).

(** *** What is rendered (lines 352-375 and 475-509) *)

Definition isClientLoggedIn (a : App) : bool := isLoggedIn (clientStatus a).

Definition canClientSend (a : App) : bool :=
  isClientLoggedIn a && (msgCount (clientStatus a) <? MAX_MESSAGES_BEFORE_LOCK)%Z.

(** Line 475: the form with the input and the Send button is rendered. *)
Definition formRendered (a : App) : bool :=
  negb (loading a) && negb (falsy (userId a))
  && ((bool_decide (userRole a ≠ None) && isClientLoggedIn a)
      || (isRole (userRole a) master && isClientLoggedIn a)).

(** Lines 501 and 506: the input and the Send button are disabled. *)
Definition sendDisabled (a : App) : bool :=
  isRole (userRole a) client && negb (canClientSend a).

(** The user edits the input (line 498). *)
Definition typeMessage (s : string) : Js unit :=
  w <- getWorld ;;
  if formRendered (app w) && negb (sendDisabled (app w)) then setNewMessage s
  else ret tt.

(** The user submits the form (line 477): possible only when the form is
    on the page and its controls are enabled. *)
Definition submitForm : Js unit :=
  w <- getWorld ;;
  if formRendered (app w) && negb (sendDisabled (app w)) then handleSendMessage
  else ret tt.

End App.

(** ** Observations used by the statements *)

(** The coming store request will be fulfilled. *)
Definition fulfilled (w : World) : bool :=
  match faults w with
  | Some _ :: _ => false
  | _ => true
  end.

Definition isExpiry (l : ConsoleLine) : bool :=
  match l with
  | Logged s => String.eqb s "Touch timer expired. Initiating auto-logout."
  | Failed _ _ => false
  end.

(** How many times the timer of the hold button has fired so far. *)
Definition expirations (w : World) : nat :=
  List.length (List.filter isExpiry (console w)).

(** ** Sample sessions

    Concrete worlds on which the statements below are instantiated: the
    page runs under the application identifier "app", the handles are set,
    no timer is pending and no request is going to fail. *)

Definition closedModal : Modal := {| isOpen := false; title := ""; message := "" |}.

Definition sampleStatus (n : Z) (force : bool) : ClientStatus :=
  {| isLoggedIn := true; msgCount := n; lastLogin := Some 0%N; forceLogout := force |}.

Definition sampleApp (role : option Role) (uid : option string) (txt : string)
    (status : ClientStatus) : App :=
  {| db := true; auth := true; userId := uid; userRole := role; newMessage := txt;
     clientStatus := status; loading := false; isTouching := false;
     modal := closedModal; touchTimerRef := None |}.

Definition sampleWorld (a : App) (fs : Firestore) : World :=
  {| app := a; firestore := fs; currentUser := userId a; clock := 1000%N;
     timers := []; nextTimerId := 0; faults := []; console := [] |}.

(** The conversation of the client session holds one message and the status
    document of the client exists. *)
Definition sampleStore (status : ClientStatus) : Firestore :=
  {| collections :=
       {[ getChatCollectionPath "app" (Some HARDCODED_CLIENT_ID) (Some HARDCODED_CLIENT_ID)
          := [(0, {| text := "hello"; senderId := HARDCODED_CLIENT_ID; timestamp := 10%N |})] ]};
     documents := {[ getStatusDocPath "app" (Some HARDCODED_CLIENT_ID) := status ]};
     nextDocId := 1 |}.

(** A client session whose copy of the status agrees with the store. *)
Definition clientWorld (txt : string) (status : ClientStatus) : World :=
  sampleWorld (sampleApp (Some client) (Some HARDCODED_CLIENT_ID) txt status)
              (sampleStore status).

(** A master session. *)
Definition masterWorld (txt : string) (status : ClientStatus) : World :=
  sampleWorld (sampleApp (Some master) (Some "master_user_1") txt status)
              (sampleStore status).

(** A conversation left over from an earlier session, and no status
    document. *)
Definition staleStore : Firestore :=
  {| collections :=
       {[ getChatCollectionPath "app" (Some HARDCODED_CLIENT_ID) (Some HARDCODED_CLIENT_ID)
          := [(0, {| text := "hello"; senderId := HARDCODED_CLIENT_ID; timestamp := 10%N |})] ]};
     documents := ∅;
     nextDocId := 1 |}.

(** The client, authenticated, not yet logged in. *)
Definition loginWorld : World :=
  sampleWorld (sampleApp (Some client) (Some HARDCODED_CLIENT_ID) "" noStatus) staleStore.

(** The client in a session; the master has just set [forceLogout] on the
    status document and the session has not seen it yet. *)
Definition forcedWorld : World :=
  sampleWorld (sampleApp (Some client) (Some HARDCODED_CLIENT_ID) "" (sampleStatus 1 false))
              (sampleStore (sampleStatus 1 true)).

(** ** The list of messages on the page (lines 163-173) *)

(** [orderBy('timestamp', 'asc')]: by time, and documents of the same time
    by their identifiers. *)
Definition docLe (d1 d2 : nat * Message) : Prop :=
  (timestamp (snd d1) < timestamp (snd d2))%N
  \/ (timestamp (snd d1) = timestamp (snd d2) /\ fst d1 <= fst d2).

#[global] Instance docLe_dec : RelDecision docLe.
Proof. intros d1 d2. unfold docLe. apply _. Defined.

(** [query(ref, orderBy('timestamp', 'asc'), limit(50))] on the documents
    of a collection. *)
Definition runQuery (fs : Firestore) (coll : string) : list (nat * Message) :=
  take 50 (merge_sort docLe (docsAt fs coll)).

(** Lines 139 and 164: the listener of the conversation is subscribed. *)
Definition chatSubscribed (a : App) : bool :=
  negb (negb (db a) || falsy (userId a) || falsy (masterId a))
  && ((isRole (userRole a) master && isLoggedIn (clientStatus a))
      || isRole (userRole a) client).

Section Listing.

Variable appId : string.

(** Lines 165-170: what a snapshot hands to [setMessages], each document
    with its identifier; [None] while the listener is not subscribed. *)
Definition chatSnapshot (w : World) : option (list (nat * Message)) :=
  let a := app w in
  if chatSubscribed a then
    Some (runQuery (firestore w)
            (getChatCollectionPath appId (orElse (masterId a) (userId a))
               (Some HARDCODED_CLIENT_ID)))
  else None.

End Listing.

(** A conversation of the master of the samples that holds [n] messages,
    sent one millisecond apart. *)
Definition longStore (n : nat) : Firestore :=
  {| collections :=
       {[ getChatCollectionPath "app" (Some "master_user_1") (Some HARDCODED_CLIENT_ID)
          := List.map (fun i => (i, {| text := "old"; senderId := "master_user_1";
                                      timestamp := N.of_nat i |}))
                      (seq 0 n) ]};
     documents := {[ getStatusDocPath "app" (Some HARDCODED_CLIENT_ID) := sampleStatus 0 false ]};
     nextDocId := n |}.

(** ** The open chat room ([src/unnamed/part_000])

    The second component: one collection 'chats' that every signed-in
    visitor reads and writes.  Its state is passed explicitly. *)

Module OpenChat.

Record ChatDoc : Type := mkChatDoc
  { text : string;
    timestamp : N;                   (* the time of the server *)
    uid : string;
    displayName : string }.

Record Room : Type := mkRoom
  { chats : list (nat * ChatDoc);    (* the collection 'chats' *)
    nextDocId : nat;
    input : string;
    user : option string;            (* the [uid] of the signed-in user *)
    serverClock : N;
    faults : list (option string);   (* fate of the coming requests *)
    console : list ConsoleLine }.

(** Lines 73-88.  The text is tested after [trim] and stored as typed;
    [substring(0, 4)] is the first four characters of the identifier, or
    all of it when it is shorter. *)
Definition sendMessage (r : Room) : Room :=
  match String.eqb (trim (input r)) "", user r with
  | true, _ => r
  | false, None => r
  | false, Some u =>
      match faults r with
      | Some e :: rest =>
          {| chats := chats r; nextDocId := nextDocId r; input := input r;
             user := user r; serverClock := serverClock r; faults := rest;
             console := Failed "Error sending message:" (StoreError e) :: console r |}
      | fate =>
          {| chats := (chats r
                       ++ [(nextDocId r,
                            {| text := input r;
                               timestamp := serverClock r;
                               uid := u;
                               displayName := "Guest-" +:+ String.substring 0 4 u |})])%list;
             nextDocId := S (nextDocId r); input := "";
             user := user r; serverClock := serverClock r; faults := tail fate;
             console := console r |}
      end
  end.

(** A visitor with a text typed, and the same visitor when the next request
    is going to fail. *)
Definition sampleRoom (typed : string) (fate : list (option string)) : Room :=
  {| chats := []; nextDocId := 0; input := typed; user := Some "u1234567";
     serverClock := 5000%N; faults := fate; console := [] |}.

End OpenChat.

(** ** The events of a session

    What can happen to the component, each with the handler the source
    binds to it.  The events are taken whether or not the page currently
    offers the control: what holds of every sequence of them holds of every
    sequence the page allows. *)

Inductive Event : Type :=
  | AuthStateChanged (user : option string)   (* line 113 *)
  | StatusSnapshot                            (* line 144 *)
  | ClickLogin                                (* lines 364 and 526 *)
  | ClickLogout                               (* line 411 *)
  | ClickForceLogout                          (* line 427 *)
  | ChangeInput (s : string)                  (* line 498 *)
  | SubmitMessage                             (* line 477 *)
  | PressHold                                 (* lines 482 and 484 *)
  | ReleaseHold                               (* lines 483 and 485 *)
  | TimePasses (ms : N).

Section Events.

Variables appId limitReachedText sendErrorText forceSentText forceErrorText : string.

Definition dispatch (e : Event) : Js unit :=
  match e with
  | AuthStateChanged user => authStateChanged user
  | StatusSnapshot => observeStatus appId
  | ClickLogin => handleLogin appId
  | ClickLogout => w <- getWorld ;; handleLogout appId (closureOf (app w))
  | ClickForceLogout => handleMasterForceLogout appId forceSentText forceErrorText
  | ChangeInput s => setNewMessage s
  | SubmitMessage => handleSendMessage appId limitReachedText sendErrorText
  | PressHold => handleTouchStart
  | ReleaseHold => handleTouchEnd
  | TimePasses ms => elapse appId ms
  end.

(** The world after a sequence of events. *)
Fixpoint run (es : list Event) (w : World) : World :=
  match es with
  | [] => w
  | e :: rest => run rest (after (dispatch e) w)
  end.

End Events.

(** Every document of [fs] is still in [fs']: each collection of [fs'] starts
    with the documents it had in [fs], and no status document is gone. *)
Definition keepsDocuments (fs fs' : Firestore) : Prop :=
  (forall path, docsAt fs path `prefix_of` docsAt fs' path)
  /\ (forall path, is_Some (documents fs !! path) -> is_Some (documents fs' !! path)).

Definition inBounds (st : ClientStatus) : Prop :=
  (0 <= msgCount st <= MAX_MESSAGES_BEFORE_LOCK)%Z.

(** The counter the session holds and the counter of every status document
    are within the bounds. *)
Definition countersInBounds (w : World) : Prop :=
  inBounds (clientStatus (app w))
  /\ (forall path st, documents (firestore w) !! path = Some st -> inBounds st).

(** A handler that keeps every document, and one that keeps the counters
    within the bounds, from any world. *)
Definition keeping {A : Type} (m : Js A) : Prop :=
  forall w, keepsDocuments (firestore w) (firestore (after m w)).

Definition bounding {A : Type} (m : Js A) : Prop :=
  forall w, countersInBounds w -> countersInBounds (after m w).

Definition isDelete (wr : WriteOp) : bool :=
  match wr with
  | DeleteDoc _ _ | DeleteStatus _ => true
  | _ => false
  end.

Definition boundedWrite (wr : WriteOp) : Prop :=
  match wr with
  | SetStatus _ data _ => inBounds data
  | _ => True
  end.

(** The service reports a signed-in user; the service reports anything. *)
Definition isSignIn (e : Event) : bool :=
  match e with
  | AuthStateChanged (Some _) => true
  | _ => false
  end.

Definition isAuthChange (e : Event) : bool :=
  match e with
  | AuthStateChanged _ => true
  | _ => false
  end.

(** Two states of a status document that differ at most in [forceLogout]. *)
Definition sameButForce (before after : option ClientStatus) : Prop :=
  match before, after with
  | Some x, Some y =>
      isLoggedIn x = isLoggedIn y /\ msgCount x = msgCount y /\ lastLogin x = lastLogin y
  | None, None => True
  | _, _ => False
  end.

(** * Properties *)

(** ** Role resolution *)

Lemma resolveRole_client (uid : string) :
  resolveRole uid = client <-> uid = HARDCODED_CLIENT_ID.
Proof.
  unfold resolveRole.
  destruct (String.eqb_spec uid HARDCODED_CLIENT_ID) as [E | N].
  - split; trivial.
  - split; [discriminate | contradiction].
Qed.

Lemma resolveRole_master (uid : string) :
  resolveRole uid = master <-> uid <> HARDCODED_CLIENT_ID.
Proof.
  unfold resolveRole.
  destruct (String.eqb_spec uid HARDCODED_CLIENT_ID) as [E | N].
  - split; [discriminate | contradiction].
  - split; trivial.
Qed.

(** C5. When the sign-in service reports the identity [uid], the session
    takes that identity, and its role is 'client' if and only if [uid] is
    exactly [HARDCODED_CLIENT_ID]; it is 'master' if and only if it is not. *)
Theorem role_client_iff_hardcoded_id (uid : string) (w : World) :
  let a := app (after (authStateChanged (Some uid)) w) in
  userId a = Some uid
  /\ (userRole a = Some client <-> uid = HARDCODED_CLIENT_ID)
  /\ (userRole a = Some master <-> uid <> HARDCODED_CLIENT_ID).
Proof.
  cbn. repeat split.
  - intros H. apply resolveRole_client. congruence.
  - intros H. f_equal. now apply resolveRole_client.
  - intros H. apply resolveRole_master. congruence.
  - intros H. f_equal. now apply resolveRole_master.
Qed.

(** ** Sending *)

Section Sending.

Variables appId limitReachedText sendErrorText : string.

Local Abbreviation send := (handleSendMessage appId limitReachedText sendErrorText).
Local Abbreviation statusPath := (getStatusDocPath appId (Some HARDCODED_CLIENT_ID)).

(** Line 259 lets a session through that has its handles, an identity, a
    role and a text that is not blank. *)
Lemma guard_open (a : App) :
  db a = true -> falsy (userId a) = false -> userRole a <> None ->
  trim (newMessage a) <> "" ->
  negb (db a) || falsy (userId a) || String.eqb (trim (newMessage a)) ""
    || falsy (masterId a) = false.
Proof.
  intros Hdb Hu Hr Ht. rewrite Hdb, Hu. cbn.
  destruct (String.eqb_spec (trim (newMessage a)) "") as [E | _]; [contradiction |].
  cbn. unfold masterId. destruct (userRole a) as [[] |]; auto. contradiction.
Qed.

(** C9. A send whose text is empty or blank returns at line 259: the world
    (store, component state, timers, console) is left as it was, whatever
    the role. *)
Theorem blank_send_changes_nothing (w : World) :
  trim (newMessage (app w)) = "" ->
  send w = (Normal tt, w).
Proof.
  intros H. unfold handleSendMessage, bind, getWorld. cbn.
  rewrite H. cbn. rewrite !orb_true_r. cbn. reflexivity.
Qed.

(** The two outcomes of a send by a client whose counter is at or over the
    limit: line 259 or line 273. *)
Lemma send_over_limit (w : World) :
  userRole (app w) = Some client ->
  (MAX_MESSAGES_BEFORE_LOCK <= msgCount (clientStatus (app w)))%Z ->
  send w =
    if negb (db (app w)) || falsy (userId (app w))
       || String.eqb (trim (newMessage (app w))) "" || falsy (masterId (app w))
    then (Normal tt, w)
    else setModal {| isOpen := true; title := "Message Limit Reached";
                     message := limitReachedText |} w.
Proof.
  intros Hr Hc. unfold handleSendMessage, bind, getWorld. cbn.
  destruct (negb _ || _ || _ || _); [reflexivity |].
  rewrite Hr. cbn.
  destruct (Z.leb_spec MAX_MESSAGES_BEFORE_LOCK (msgCount (clientStatus (app w))));
    [reflexivity | lia].
Qed.

(** C4. A client whose counter stands at [MAX_MESSAGES_BEFORE_LOCK] sends:
    whatever the text, no request reaches the store, so the messages and
    the status document stay as they were; and when the send passes line
    259 the dialog 'Message Limit Reached' is opened. *)
Theorem send_at_limit_rejected (w : World) :
  userRole (app w) = Some client ->
  msgCount (clientStatus (app w)) = MAX_MESSAGES_BEFORE_LOCK ->
  let w' := after send w in
  firestore w' = firestore w
  /\ faults w' = faults w
  /\ (db (app w) = true -> falsy (userId (app w)) = false ->
      trim (newMessage (app w)) <> "" ->
      modal (app w') = {| isOpen := true; title := "Message Limit Reached";
                          message := limitReachedText |}).
Proof.
  intros Hr Hc. cbn zeta. unfold after.
  rewrite send_over_limit by (trivial; lia).
  repeat split.
  - destruct (negb _ || _ || _ || _); reflexivity.
  - destruct (negb _ || _ || _ || _); reflexivity.
  - intros Hdb Hu Ht. rewrite guard_open; trivial. congruence.
Qed.

(** The batch of a send that is neither refused nor the special code
    (lines 290-304). *)
Lemma send_ordinary (w : World) :
  negb (db (app w)) || falsy (userId (app w))
    || String.eqb (trim (newMessage (app w))) "" || falsy (masterId (app w)) = false ->
  isRole (userRole (app w)) client
    && (MAX_MESSAGES_BEFORE_LOCK <=? msgCount (clientStatus (app w)))%Z = false ->
  isRole (userRole (app w)) client
    && String.eqb (toUpperCase (trim (newMessage (app w)))) SPECIAL_CODE = false ->
  send w =
    tryCatch
      (commit
         ([SetNew (getChatCollectionPath appId (masterId (app w)) (Some HARDCODED_CLIENT_ID))
             {| text := trim (newMessage (app w));
                senderId := splice (userId (app w));
                timestamp := clock w |}]
          ++ (if isRole (userRole (app w)) client then
                [SetStatus statusPath
                   (withCount (clientStatus (app w)) (msgCount (clientStatus (app w)) + 1))
                   true]
              else []))%list ;;
       setNewMessage "")
      (fun error =>
         setModal {| isOpen := true; title := "Error";
                     message := sendErrorText +:+ errorMessage error |}) w.
Proof.
  intros Hg Hl Hc. unfold handleSendMessage at 1. unfold bind at 1, getWorld at 1.
  cbv beta iota zeta. rewrite Hg, Hl, Hc.
  unfold writeBatch, identifier. cbn [existsb firestoreImports String.eqb Ascii.eqb Bool.eqb orb].
  unfold bind at 1 2, ret, now. destruct (isRole _ _); reflexivity.
Qed.

Lemma messagesAt_insert (c : gmap string (list (nat * Message))) (d : gmap string ClientStatus)
    (n : nat) (coll : string) (l : list (nat * Message)) :
  messagesAt {| collections := <[coll := l]> c; documents := d; nextDocId := n |} coll
  = snd <$> l.
Proof. unfold messagesAt, docsAt. cbn. now rewrite lookup_insert_eq. Qed.

Lemma mergeStatus_own (s : ClientStatus) (n : Z) :
  mergeStatus (Some s) (withCount s n) = withCount s n.
Proof. unfold mergeStatus, withCount. cbn. now destruct (lastLogin s). Qed.

Lemma msgCount_mergeStatus (old : option ClientStatus) (data : ClientStatus) :
  msgCount (mergeStatus old data) = msgCount data.
Proof. now destruct old. Qed.

(** C10. An accepted send by a master is one request carrying one write,
    the new message document of the conversation; the status documents of
    the store and the status held by the session are not touched.  When
    the store rejects the request nothing is written. *)
Theorem master_send_writes_one_message (w : World) (uid : string) :
  userRole (app w) = Some master ->
  db (app w) = true -> userId (app w) = Some uid -> uid <> "" ->
  trim (newMessage (app w)) <> "" ->
  let w' := after send w in
  let fs := firestore w in
  let chat := getChatCollectionPath appId (Some uid) (Some HARDCODED_CLIENT_ID) in
  let doc := {| text := trim (newMessage (app w)); senderId := uid;
                timestamp := clock w |} in
  documents (firestore w') = documents fs
  /\ clientStatus (app w') = clientStatus (app w)
  /\ faults w' = tail (faults w)
  /\ (fulfilled w = true ->
      collections (firestore w')
      = <[chat := (docsAt fs chat ++ [(nextDocId fs, doc)])%list]> (collections fs)
      /\ messagesAt (firestore w') chat = (messagesAt fs chat ++ [doc])%list)
  /\ (fulfilled w = false -> firestore w' = fs).
Proof.
  intros Hr Hdb Hu Hne Ht. cbn zeta. unfold after.
  rewrite send_ordinary.
  2:{ apply guard_open; trivial; rewrite ?Hu, ?Hr; try discriminate.
      cbn. now destruct (String.eqb_spec uid ""). }
  2:{ now rewrite Hr. }
  2:{ now rewrite Hr. }
  rewrite Hr, Hu. unfold masterId. rewrite Hr, Hu.
  change (isRole (Some master) client) with false. cbn [splice app].
  unfold tryCatch, bind, commit, request, fulfilled.
  destruct (faults w) as [| [m |] rest]; cbn;
    repeat split; try discriminate; try reflexivity.
  all: rewrite messagesAt_insert; unfold messagesAt; now rewrite fmap_app.
Qed.

(** Lines 290-311 for a client: the store after the batch of the message
    and the counter was sent. *)
Lemma client_batch_outcome (w : World) (uid : string) :
  userRole (app w) = Some client ->
  db (app w) = true -> userId (app w) = Some uid -> uid <> "" ->
  trim (newMessage (app w)) <> "" ->
  (msgCount (clientStatus (app w)) < MAX_MESSAGES_BEFORE_LOCK)%Z ->
  toUpperCase (trim (newMessage (app w))) <> SPECIAL_CODE ->
  let fs := firestore w in
  let held := clientStatus (app w) in
  let chat := getChatCollectionPath appId (Some uid) (Some HARDCODED_CLIENT_ID) in
  let doc := {| text := trim (newMessage (app w)); senderId := uid;
                timestamp := clock w |} in
  faults (after send w) = tail (faults w)
  /\ firestore (after send w)
     = if fulfilled w then
         {| collections := <[chat := (docsAt fs chat ++ [(nextDocId fs, doc)])%list]> (collections fs);
            documents := <[statusPath := mergeStatus (documents fs !! statusPath)
                                           (withCount held (msgCount held + 1))]> (documents fs);
            nextDocId := S (nextDocId fs) |}
       else fs.
Proof.
  intros Hr Hdb Hu Hne Ht Hc Hs. cbn zeta. unfold after.
  rewrite send_ordinary.
  2:{ apply guard_open; trivial; rewrite ?Hu, ?Hr; try discriminate.
      cbn. now destruct (String.eqb_spec uid ""). }
  2:{ apply andb_false_iff. right. apply Z.leb_gt. exact Hc. }
  2:{ apply andb_false_iff. right. now apply String.eqb_neq. }
  rewrite Hr, Hu. unfold masterId. rewrite Hr, Hu.
  change (isRole (Some client) client) with true. cbn [splice app].
  unfold tryCatch, bind, commit, request, fulfilled.
  destruct (faults w) as [| [m |] rest]; cbn; split; reflexivity.
Qed.

(** C3, as the code has it.  An accepted ordinary send by a client
    (counter under the limit, text not the special code) is one request, a
    batch of two writes: the new message document and the status document
    with the counter the session holds plus one (line 301 reads the
    counter from the state of the component, not from the store).  When the
    store fulfils the request both are in the store: the conversation has
    exactly one more message, and the counter of the status document is the
    counter the session held plus one.  That is the stored counter plus one
    exactly when the stored counter and the one the session holds agree.
    When the store rejects the request the store is as before: never one
    write without the other. *)
Theorem client_send_counts_one (w : World) (uid : string) :
  userRole (app w) = Some client ->
  db (app w) = true -> userId (app w) = Some uid -> uid <> "" ->
  trim (newMessage (app w)) <> "" ->
  (msgCount (clientStatus (app w)) < MAX_MESSAGES_BEFORE_LOCK)%Z ->
  toUpperCase (trim (newMessage (app w))) <> SPECIAL_CODE ->
  let w' := after send w in
  let fs := firestore w in
  let held := clientStatus (app w) in
  let chat := getChatCollectionPath appId (Some uid) (Some HARDCODED_CLIENT_ID) in
  let doc := {| text := trim (newMessage (app w)); senderId := uid;
                timestamp := clock w |} in
  faults w' = tail (faults w)
  /\ (fulfilled w = true ->
      collections (firestore w')
      = <[chat := (docsAt fs chat ++ [(nextDocId fs, doc)])%list]> (collections fs)
      /\ messagesAt (firestore w') chat = (messagesAt fs chat ++ [doc])%list
      /\ documents (firestore w')
         = <[statusPath := mergeStatus (documents fs !! statusPath)
                             (withCount held (msgCount held + 1))]> (documents fs)
      /\ msgCount <$> documents (firestore w') !! statusPath = Some (msgCount held + 1)%Z
      /\ (documents fs !! statusPath = Some held ->
          documents (firestore w') !! statusPath
          = Some (withCount held (msgCount held + 1)))
      /\ (forall st, documents fs !! statusPath = Some st ->
            (msgCount <$> documents (firestore w') !! statusPath = Some (msgCount st + 1)%Z
             <-> msgCount st = msgCount held)))
  /\ (fulfilled w = false -> firestore w' = fs).
Proof.
  intros Hr Hdb Hu Hne Ht Hc Hs. cbn zeta.
  destruct (client_batch_outcome w uid) as [Hf Hstore]; trivial.
  split; [exact Hf |]. rewrite Hstore. split.
  - intros ->. split_and!.
    + reflexivity.
    + rewrite messagesAt_insert. unfold messagesAt. now rewrite fmap_app.
    + reflexivity.
    + cbn. rewrite lookup_insert_eq. cbn. now rewrite msgCount_mergeStatus.
    + intros Hsync. cbn. rewrite lookup_insert_eq, Hsync. f_equal. apply mergeStatus_own.
    + intros st _. cbn. rewrite lookup_insert_eq. cbn. rewrite msgCount_mergeStatus. cbn.
      split; [intros [= E]; lia | intros ->; reflexivity].
  - now intros ->.
Qed.

(** C3, the counterexample.  The client of the samples sends "a", which is
    accepted, and then types and sends "b" before the listener has handed
    the new status to the session.  The second send is accepted as well and
    adds its message, but the counter of the status document is 1 before it
    and 1 after it: the session still held the counter 0. *)
Lemma second_send_before_snapshot :
  let send := handleSendMessage "app" "limit reached" "send error: " in
  let w1 := after (typeMessage "b") (after send (clientWorld "a" (sampleStatus 0 false))) in
  let w2 := after send w1 in
  let chat :=
    getChatCollectionPath "app" (Some HARDCODED_CLIENT_ID) (Some HARDCODED_CLIENT_ID) in
  let statusPath := getStatusDocPath "app" (Some HARDCODED_CLIENT_ID) in
  (userRole (app w1) = Some client
   /\ newMessage (app w1) = "b"
   /\ msgCount (clientStatus (app w1)) = 0%Z
   /\ fulfilled w1 = true)
  /\ messagesAt (firestore w2) chat
     = (messagesAt (firestore w1) chat
        ++ [{| text := "b"; senderId := HARDCODED_CLIENT_ID; timestamp := 1000%N |}])%list
  /\ msgCount <$> documents (firestore w1) !! statusPath = Some 1%Z
  /\ msgCount <$> documents (firestore w2) !! statusPath = Some 1%Z.
Proof. cbn zeta. split_and!; vm_compute; reflexivity. Qed.

Lemma toUpperCase_code_not_blank (s : string) :
  toUpperCase s = SPECIAL_CODE -> s <> "".
Proof. intros H E. subst s. discriminate H. Qed.




(** *** What the page lets a client do *)

Lemma canClientSend_spec (a : App) :
  canClientSend a = true
  <-> isLoggedIn (clientStatus a) = true
      /\ (msgCount (clientStatus a) < MAX_MESSAGES_BEFORE_LOCK)%Z.
Proof.
  unfold canClientSend, isClientLoggedIn. rewrite andb_true_iff, Z.ltb_lt. reflexivity.
Qed.



End Sending.

(** ** Logging out, and the timer of the hold button *)

Section Session.

Variable appId : string.

Local Abbreviation logout := (handleLogout appId).
Local Abbreviation pass := (elapse appId).

(** Line 226 evaluates [getDocs], which the module does not bind: the
    [try] block is left at once, through its [catch], and no request of
    lines 226-236 is made. *)
Lemma deleteClientChatData_eq (mId cId : option string) (database : bool) (w : World) :
  deleteClientChatData appId mId cId database w
  = if negb database || falsy mId || falsy cId then (Normal tt, w)
    else (Normal tt,
          withConsole w (Failed "Error deleting client chat data:" (ReferenceError "getDocs")
                           :: console w)).
Proof.
  unfold deleteClientChatData. destruct (negb database || falsy mId || falsy cId); reflexivity.
Qed.

Lemma handleLogout_frame (cl : Closure) (w : World) :
  let w' := after (logout cl) w in
  firestore w' = firestore w /\ faults w' = faults w /\ timers w' = timers w
  /\ nextTimerId w' = nextTimerId w /\ clock w' = clock w
  /\ expirations w' = expirations w.
Proof.
  cbn zeta. unfold after, handleLogout, bind.
  destruct (c_auth cl); cbn; [| repeat split].
  destruct (c_db cl && isString (c_userId cl) HARDCODED_CLIENT_ID); cbn; [| repeat split].
  rewrite deleteClientChatData_eq.
  destruct (negb (c_db cl) || _ || _); cbn; repeat split.
Qed.

Lemma handleLogout_session (cl : Closure) (w : World) :
  let w' := after (logout cl) w in
  completion (logout cl) w = Normal tt
  /\ userId (app w') = None /\ userRole (app w') = None
  /\ (c_auth cl = true -> currentUser w' = None).
Proof.
  cbn zeta. unfold completion, after, handleLogout, bind.
  destruct (c_auth cl); cbn; [| repeat split; discriminate].
  destruct (c_db cl && isString (c_userId cl) HARDCODED_CLIENT_ID); cbn; [| repeat split].
  rewrite deleteClientChatData_eq.
  destruct (negb (c_db cl) || _ || _); cbn; repeat split.
Qed.

Lemma detached_normal (m : Js unit) (w : World) :
  completion m w = Normal tt -> detached m w = (Normal tt, after m w).
Proof.
  unfold completion, after, detached, tryCatch. destruct (m w) as [[[] | e] w']; cbn.
  - reflexivity.
  - discriminate.
Qed.

(** The callback of the timer: one line on the console, then the logout. *)
Lemma touchTimerExpired_eq (cl : Closure) (w : World) :
  touchTimerExpired appId cl w
  = (Normal tt,
     after (logout cl)
           (withConsole w (Logged "Touch timer expired. Initiating auto-logout." :: console w))).
Proof.
  unfold touchTimerExpired, bind, consoleLog, modify.
  apply detached_normal. apply handleLogout_session.
Qed.

(** Time passes while no pending timer is due. *)
Lemma fireDue_none (target : N) (ts : list Timer) (w : World) :
  Forall (fun t => (target < due t)%N) ts ->
  fireDue appId target ts w = (Normal tt, w).
Proof.
  induction 1 as [| t rest Ht _ IH]; [reflexivity |].
  cbn [fireDue]. unfold bind at 1.
  destruct (N.leb_spec (due t) target) as [Hle | _]; [lia |].
  unfold ret. exact IH.
Qed.

Lemma elapse_none (ms : N) (w : World) :
  Forall (fun t => (clock w + ms < due t)%N) (timers w) ->
  pass ms w = (Normal tt, withClock w (clock w + ms)%N).
Proof.
  intros H. unfold elapse, bind, getWorld, modify.
  now rewrite fireDue_none.
Qed.

(** Time passes the deadline of the one pending timer. *)
Lemma elapse_single (ms : N) (t : Timer) (w : World) :
  timers w = [t] -> (due t <= clock w + ms)%N ->
  pass ms w
  = (Normal tt,
     withClock
       (after (logout (env t))
          (withConsole
             (withClock (withTimers w [] (nextTimerId w)) (N.max (clock w) (due t)))
             (Logged "Touch timer expired. Initiating auto-logout." :: console w)))
       (clock w + ms)%N).
Proof.
  intros Ht Hdue. unfold elapse. unfold bind at 1, getWorld at 1. rewrite Ht.
  cbn [fireDue]. unfold bind.
  destruct (N.leb_spec (due t) (clock w + ms)) as [_ | Hlt]; [| lia].
  unfold modify. rewrite Ht.
  assert (Hf : filter (fun u => timerId u <> timerId t) [t] = []).
  { rewrite filter_cons. now rewrite decide_False by auto. }
  rewrite Hf. rewrite detached_normal.
  2:{ unfold completion. now rewrite touchTimerExpired_eq. }
  unfold after at 1. rewrite touchTimerExpired_eq. reflexivity.
Qed.

(** Lines 316-324 for a client. *)
Lemma handleTouchStart_client (w : World) :
  userRole (app w) = Some client ->
  handleTouchStart w
  = (Normal tt,
     withApp
       (withTimers w
          (timers w ++ [mkTimer (nextTimerId w) (clock w + 3000)%N (closureOf (app w))])%list
          (S (nextTimerId w)))
       (withTouchTimerRef (Some (nextTimerId w)) (withIsTouching true (app w)))).
Proof.
  intros Hr. unfold handleTouchStart, bind, getWorld. rewrite Hr.
  change (isRole (Some client) client) with true. reflexivity.
Qed.

(** Lines 327-331 for a client. *)
Lemma handleTouchEnd_client (w : World) :
  userRole (app w) = Some client ->
  handleTouchEnd w
  = (Normal tt,
     withApp
       (match touchTimerRef (app w) with
        | Some i => withTimers w (filter (fun t => timerId t <> i) (timers w)) (nextTimerId w)
        | None => w
        end)
       (withIsTouching false (app w))).
Proof.
  intros Hr. unfold handleTouchEnd, bind, getWorld. rewrite Hr.
  change (isRole (Some client) client) with true.
  destruct (touchTimerRef (app w)); reflexivity.
Qed.

Lemma handleTouchEnd_other (w : World) :
  userRole (app w) <> Some client -> handleTouchEnd w = (Normal tt, w).
Proof.
  intros Hr. unfold handleTouchEnd, bind, getWorld, isRole.
  now rewrite bool_decide_eq_false_2.
Qed.




End Session.

(** ** Login and forced logout *)

Section Login.

Variables appId limitReachedText sendErrorText forceSentText forceErrorText : string.

Local Abbreviation login := (handleLogin appId).
Local Abbreviation observe := (observeStatus appId).

(** No path through [handleLogin] removes a message document: the cleanup
    of line 204 ends in the [catch] of [deleteClientChatData]. *)
Lemma handleLogin_keeps_collections (w : World) :
  collections (firestore (after login w)) = collections (firestore w).
Proof.
  unfold after, handleLogin, bind, getWorld. cbv beta iota zeta.
  destruct (negb (db (app w)) || falsy (userId (app w))); [reflexivity |].
  unfold writeBatch, identifier. cbn [existsb firestoreImports String.eqb Ascii.eqb Bool.eqb orb].
  unfold ret at 1. cbv beta iota zeta.
  destruct (isRole (userRole (app w)) client).
  - unfold now, bind. rewrite deleteClientChatData_eq.
    destruct (negb (db (app w)) || _ || _); cbn;
      unfold tryCatch, commit, request, bind; cbn;
      destruct (faults w) as [| [m |] rest]; reflexivity.
  - unfold ret, tryCatch, commit, request, bind; cbn.
    destruct (faults w) as [| [m |] rest]; reflexivity.
Qed.

(** Lines 194-201 and 210-212: the login of a client writes the status
    document anew when the store fulfils the request. *)
Lemma handleLogin_resets_status (w : World) (uid : string) :
  userRole (app w) = Some client ->
  db (app w) = true -> userId (app w) = Some uid -> uid <> "" ->
  fulfilled w = true ->
  documents (firestore (after login w))
  = <[getStatusDocPath appId (Some uid) :=
        {| isLoggedIn := true; msgCount := 0; lastLogin := Some (clock w);
           forceLogout := false |}]> (documents (firestore w)).
Proof.
  intros Hr Hdb Hu Hne Hf.
  unfold after, handleLogin, bind, getWorld. cbv beta iota zeta.
  rewrite Hdb, Hu, Hr. cbn [negb orb falsy].
  destruct (String.eqb_spec uid ""); [contradiction |].
  change (isRole (Some client) client) with true.
  unfold writeBatch, identifier. cbn [existsb firestoreImports String.eqb Ascii.eqb Bool.eqb orb].
  unfold ret at 1, now. cbv beta iota zeta. rewrite deleteClientChatData_eq.
  unfold fulfilled in Hf.
  destruct (negb true || _ || _); cbn;
    unfold tryCatch, commit, request, bind; cbn;
    destruct (faults w) as [| [m |] rest]; try discriminate; reflexivity.
Qed.

(** C8, on a conversation that holds a message.  The client logs in: the
    status document is written with isLoggedIn = true, msgCount = 0,
    forceLogout = false and the time of the login, but the message of the
    conversation is still in the store: line 226 threw a [ReferenceError]
    (the console shows it) before any document was deleted. *)
Theorem login_leaves_old_messages :
  let w' := after (handleLogin "app") loginWorld in
  let chat := getChatCollectionPath "app" (Some HARDCODED_CLIENT_ID) (Some HARDCODED_CLIENT_ID) in
  documents (firestore w') !! getStatusDocPath "app" (Some HARDCODED_CLIENT_ID)
  = Some {| isLoggedIn := true; msgCount := 0; lastLogin := Some (clock loginWorld);
            forceLogout := false |}
  /\ messagesAt (firestore loginWorld) chat
     = [{| text := "hello"; senderId := HARDCODED_CLIENT_ID; timestamp := 10%N |}]
  /\ messagesAt (firestore w') chat
     = [{| text := "hello"; senderId := HARDCODED_CLIENT_ID; timestamp := 10%N |}]
  /\ console w'
     = [Logged "Login status updated.";
        Logged "Client chat data reset/deleted on successful login.";
        Failed "Error deleting client chat data:" (ReferenceError "getDocs")].
Proof. cbn zeta. split_and!; vm_compute; reflexivity. Qed.

(** The listener of the status document never writes to the store. *)
Lemma observeStatus_keeps_store (w : World) :
  firestore (after observe w) = firestore w.
Proof.
  unfold after, observeStatus, bind, getWorld. cbv beta iota zeta.
  destruct (negb (db (app w)) || _ || _); [reflexivity |].
  unfold statusSnapshot, bind, getWorld. cbv beta iota zeta.
  destruct (documents (firestore w) !! _) as [status |]; [| reflexivity].
  cbn [setClientStatus setApp modify].
  destruct (isRole (userRole (app w)) client && forceLogout status); [| reflexivity].
  unfold unawaited, bind, consoleLog, modify.
  rewrite detached_normal by apply handleLogout_session.
  cbn [snd]. now destruct (handleLogout_frame appId (closureOf (app w))
    (withConsole (withApp w (withClientStatus status (app w)))
       (Logged "Master initiated forced logout."
          :: console (withApp w (withClientStatus status (app w)))))) as [-> _].
Qed.

(** Lines 150-152 and 243-253: a client session that is handed a status
    with [forceLogout] set signs out and drops its identity. *)
Lemma forced_logout_signs_out (w : World) (status : ClientStatus) (uid : string) :
  userRole (app w) = Some client ->
  db (app w) = true -> auth (app w) = true ->
  userId (app w) = Some uid -> uid <> "" ->
  documents (firestore w) !! getStatusDocPath appId (Some HARDCODED_CLIENT_ID) = Some status ->
  forceLogout status = true ->
  let w' := after observe w in
  currentUser w' = None /\ userId (app w') = None /\ userRole (app w') = None.
Proof.
  intros Hr Hdb Hauth Hu Hne Hdoc Hforce. cbn zeta.
  unfold after, observeStatus, bind, getWorld. cbv beta iota zeta.
  unfold masterId. rewrite Hdb, Hr, Hu, Hdoc. cbn [negb orb falsy].
  destruct (String.eqb_spec uid ""); [contradiction |].
  unfold statusSnapshot, bind, getWorld. cbv beta iota zeta.
  cbn [setClientStatus setApp modify orb]. cbv beta iota. rewrite Hr, Hforce.
  change (isRole (Some client) client && true) with true. cbv iota.
  unfold unawaited, bind, consoleLog, modify.
  rewrite detached_normal by apply handleLogout_session.
  cbn [snd].
  match goal with
  | |- context [after (handleLogout appId ?cl) ?w0] =>
      destruct (handleLogout_session appId cl w0) as (_ & Hid & Hrole & Hout)
  end.
  split; [| split]; trivial. apply Hout. exact Hauth.
Qed.

(** C2, on a session with one message.  The status document carries
    forceLogout = true and the client session is handed its snapshot: the
    session signs out and drops its identity, but the message of the
    conversation and the status document are still in the store: the
    deletion of lines 226-236 stopped at line 226 with a [ReferenceError]
    (the console shows it). *)
Theorem forced_logout_leaves_data :
  let w' := after (observeStatus "app") forcedWorld in
  let chat := getChatCollectionPath "app" (Some HARDCODED_CLIENT_ID) (Some HARDCODED_CLIENT_ID) in
  let statusPath := getStatusDocPath "app" (Some HARDCODED_CLIENT_ID) in
  documents (firestore forcedWorld) !! statusPath = Some (sampleStatus 1 true)
  /\ currentUser w' = None
  /\ userId (app w') = None
  /\ userRole (app w') = None
  /\ messagesAt (firestore w') chat
     = [{| text := "hello"; senderId := HARDCODED_CLIENT_ID; timestamp := 10%N |}]
  /\ documents (firestore w') !! statusPath = Some (sampleStatus 1 true)
  /\ console w'
     = [Logged "Client successfully logged out and data deleted.";
        Failed "Error deleting client chat data:" (ReferenceError "getDocs");
        Logged "Master initiated forced logout."].
Proof. cbn zeta. split_and!; vm_compute; reflexivity. Qed.

(** Once the session has dropped its identity, none of its handlers
    reaches the store. *)
Lemma signed_out_session_is_inert (w : World) :
  userId (app w) = None -> userRole (app w) = None ->
  handleSendMessage appId limitReachedText sendErrorText w = (Normal tt, w)
  /\ login w = (Normal tt, w)
  /\ handleMasterForceLogout appId forceSentText forceErrorText w = (Normal tt, w)
  /\ observe w = (Normal tt, w).
Proof.
  intros Hu Hr. repeat split.
  - unfold handleSendMessage, bind, getWorld. rewrite Hu. cbn. now rewrite orb_true_r.
  - unfold handleLogin, bind, getWorld. rewrite Hu. cbn. now rewrite orb_true_r.
  - unfold handleMasterForceLogout, bind, getWorld. now rewrite Hr.
  - unfold observeStatus, bind, getWorld. rewrite Hu. cbn. now rewrite orb_true_r.
Qed.

End Login.

(** * The statements on the sample sessions *)

(** A blank text in the input of the client session of the samples. *)
Lemma blank_send_changes_nothing_sample :
  trim (newMessage (app (clientWorld "  " (sampleStatus 1 false)))) = ""
  /\ handleSendMessage "app" "limit reached" "send error: "
       (clientWorld "  " (sampleStatus 1 false))
     = (Normal tt, clientWorld "  " (sampleStatus 1 false)).
Proof.
  split; [reflexivity |].
  apply (blank_send_changes_nothing "app" "limit reached" "send error: ").
  reflexivity.
Defined.

(** The client at the limit sends "one more". *)
Lemma send_at_limit_rejected_sample :
  let w := clientWorld "one more" (sampleStatus 3 false) in
  let w' := after (handleSendMessage "app" "limit reached" "send error: ") w in
  msgCount (clientStatus (app w)) = MAX_MESSAGES_BEFORE_LOCK
  /\ firestore w' = firestore w
  /\ faults w' = faults w
  /\ modal (app w') = {| isOpen := true; title := "Message Limit Reached";
                         message := "limit reached" |}.
Proof.
  cbn zeta.
  destruct (send_at_limit_rejected "app" "limit reached" "send error: "
              (clientWorld "one more" (sampleStatus 3 false)))
    as (Hstore & Hfaults & Hmodal).
  - reflexivity.
  - reflexivity.
  - refine (conj eq_refl (conj Hstore (conj Hfaults _))).
    apply Hmodal; [reflexivity | reflexivity | vm_compute; discriminate].
Defined.

(** The master of the samples sends " hi ". *)
Lemma master_send_writes_one_message_sample :
  let w := masterWorld " hi " (sampleStatus 1 false) in
  let w' := after (handleSendMessage "app" "limit reached" "send error: ") w in
  let chat := getChatCollectionPath "app" (Some "master_user_1") (Some HARDCODED_CLIENT_ID) in
  documents (firestore w') = documents (firestore w)
  /\ clientStatus (app w') = clientStatus (app w)
  /\ messagesAt (firestore w') chat
     = (messagesAt (firestore w) chat
        ++ [{| text := "hi"; senderId := "master_user_1"; timestamp := 1000%N |}])%list.
Proof.
  cbn zeta.
  destruct (master_send_writes_one_message "app" "limit reached" "send error: "
              (masterWorld " hi " (sampleStatus 1 false)) "master_user_1")
    as (Hdocs & Hheld & _ & Hok & _).
  - reflexivity.
  - reflexivity.
  - reflexivity.
  - vm_compute; discriminate.
  - vm_compute; discriminate.
  - refine (conj Hdocs (conj Hheld _)).
    destruct (Hok eq_refl) as [_ Hm]. exact Hm.
Defined.

(** The client of the samples, with one message sent so far, sends " hi ". *)
Lemma client_send_counts_one_sample :
  let w := clientWorld " hi " (sampleStatus 1 false) in
  let w' := after (handleSendMessage "app" "limit reached" "send error: ") w in
  let chat := getChatCollectionPath "app" (Some HARDCODED_CLIENT_ID) (Some HARDCODED_CLIENT_ID) in
  let statusPath := getStatusDocPath "app" (Some HARDCODED_CLIENT_ID) in
  messagesAt (firestore w') chat
  = (messagesAt (firestore w) chat
     ++ [{| text := "hi"; senderId := HARDCODED_CLIENT_ID; timestamp := 1000%N |}])%list
  /\ documents (firestore w') !! statusPath = Some (sampleStatus 2 false).
Proof.
  cbn zeta.
  destruct (client_send_counts_one "app" "limit reached" "send error: "
              (clientWorld " hi " (sampleStatus 1 false)) HARDCODED_CLIENT_ID)
    as (_ & Hok & _).
  - reflexivity.
  - reflexivity.
  - reflexivity.
  - vm_compute; discriminate.
  - vm_compute; discriminate.
  - reflexivity.
  - vm_compute; discriminate.
  - destruct (Hok eq_refl) as (_ & Hm & _ & _ & Hsync & _).
    split; [exact Hm |]. apply Hsync. reflexivity.
Defined.





(** * Further properties of the component *)

(** ** Which documents a send touches *)

Section Conversations.

Variables appId limitReachedText sendErrorText : string.

Local Abbreviation send := (handleSendMessage appId limitReachedText sendErrorText).
Local Abbreviation statusPath := (getStatusDocPath appId (Some HARDCODED_CLIENT_ID)).
Local Abbreviation chatOf a :=
  (getChatCollectionPath appId (masterId a) (Some HARDCODED_CLIENT_ID)).

(** The handler, branch by branch. *)
Lemma send_cases (w : World) :
  send w =
    let a := app w in
    if negb (db a) || falsy (userId a) || String.eqb (trim (newMessage a)) ""
       || falsy (masterId a)
    then (Normal tt, w)
    else if isRole (userRole a) client
            && (MAX_MESSAGES_BEFORE_LOCK <=? msgCount (clientStatus a))%Z
    then setModal {| isOpen := true; title := "Message Limit Reached";
                     message := limitReachedText |} w
    else if isRole (userRole a) client
            && String.eqb (toUpperCase (trim (newMessage a))) SPECIAL_CODE
    then
      (request [SetStatus statusPath (withCount (clientStatus a) 0) true] ;;
       setNewMessage "" ;;
       request [SetNew (chatOf a)
                  {| text := "Master: Code received. Client message counter reset.";
                     senderId := "SYSTEM"; timestamp := clock w |}]) w
    else
      tryCatch
        (request
           ([SetNew (chatOf a)
               {| text := trim (newMessage a); senderId := splice (userId a);
                  timestamp := clock w |}]
            ++ (if isRole (userRole a) client then
                  [SetStatus statusPath
                     (withCount (clientStatus a) (msgCount (clientStatus a) + 1)) true]
                else []))%list ;;
         setNewMessage "")
        (fun error =>
           setModal {| isOpen := true; title := "Error";
                       message := sendErrorText +:+ errorMessage error |}) w.
Proof.
  cbv zeta.
  destruct (negb (db (app w)) || falsy (userId (app w))
            || String.eqb (trim (newMessage (app w))) "" || falsy (masterId (app w))) eqn:Hg.
  { unfold handleSendMessage, bind, getWorld. cbv beta iota zeta. now rewrite Hg. }
  destruct (isRole (userRole (app w)) client
            && (MAX_MESSAGES_BEFORE_LOCK <=? msgCount (clientStatus (app w)))%Z) eqn:Hl.
  { unfold handleSendMessage, bind, getWorld. cbv beta iota zeta. now rewrite Hg, Hl. }
  destruct (isRole (userRole (app w)) client
            && String.eqb (toUpperCase (trim (newMessage (app w)))) SPECIAL_CODE) eqn:Hc.
  - unfold handleSendMessage. unfold bind at 1, getWorld at 1. cbv beta iota zeta.
    rewrite Hg, Hl, Hc. unfold setDoc, addDoc, identifier.
    cbn [existsb firestoreImports String.eqb Ascii.eqb Bool.eqb orb].
    unfold bind, now, request, setNewMessage, setApp, modify.
    destruct (faults w) as [| [m |] rest]; reflexivity.
  - now apply send_ordinary.
Qed.

Lemma string_length_app (s t : string) :
  String.length (s +:+ t) = String.length s + String.length t.
Proof. induction s as [| c s IH]; cbn; [reflexivity | rewrite <- IH; reflexivity]. Qed.

Lemma string_app_inj_r (s t suffix : string) :
  s +:+ suffix = t +:+ suffix -> s = t.
Proof.
  revert t. induction s as [| c s IH]; intros [| d t] H.
  - reflexivity.
  - apply (f_equal String.length) in H. rewrite !string_length_app in H. cbn in H. lia.
  - apply (f_equal String.length) in H. rewrite !string_length_app in H. cbn in H. lia.
  - injection H as -> H. f_equal. now apply IH.
Qed.

(** Lines 37-38: two conversations with the same second party are the same
    only if the first party is the same. *)
Lemma getChatCollectionPath_inj (m1 m2 : string) (cId : option string) :
  getChatCollectionPath appId (Some m1) cId = getChatCollectionPath appId (Some m2) cId ->
  m1 = m2.
Proof.
  unfold getChatCollectionPath. cbn [splice]. intros H.
  apply String.app_inj in H. apply String.app_inj in H. apply String.app_inj in H.
  now apply string_app_inj_r in H.
Qed.

(** A send writes to no collection but the conversation of its session. *)
Lemma send_frame (w : World) (path : string) :
  path <> chatOf (app w) ->
  collections (firestore (after send w)) !! path = collections (firestore w) !! path.
Proof.
  intros Hp. unfold after. rewrite send_cases. cbv zeta.
  destruct (negb _ || _ || _ || _); [reflexivity |].
  destruct (isRole _ _ && (_ <=? _)%Z); [reflexivity |].
  destruct (isRole _ _ && String.eqb _ _).
  - unfold bind, request, setNewMessage, setApp, modify.
    destruct (faults w) as [| [m |] [| [m' |] rest]]; cbn;
      try reflexivity; now rewrite lookup_insert_ne.
  - unfold tryCatch, bind, request, setNewMessage, setApp, modify.
    destruct (isRole _ _);
      destruct (faults w) as [| [m |] rest]; cbn;
      try reflexivity; now rewrite lookup_insert_ne.
Qed.

(** X1. A master session (its identity is not [HARDCODED_CLIENT_ID]) writes
    its messages under chats/<its own id>_<client id>, the client session
    reads and writes chats/<client id>_<client id> (line 88 makes [masterId]
    the identity of the session for both roles): whatever a master sends,
    and whatever the store answers, the conversation of the client session
    is left as it was. *)
Theorem master_send_misses_client_conversation (w : World) (m : string) :
  userRole (app w) = Some master -> userId (app w) = Some m ->
  m <> HARDCODED_CLIENT_ID ->
  let clientChat :=
    getChatCollectionPath appId (Some HARDCODED_CLIENT_ID) (Some HARDCODED_CLIENT_ID) in
  docsAt (firestore (after send w)) clientChat = docsAt (firestore w) clientChat.
Proof.
  intros Hr Hu Hm. cbv zeta. unfold docsAt. rewrite send_frame; [reflexivity |].
  unfold masterId. rewrite Hr, Hu. intros H.
  apply getChatCollectionPath_inj in H. congruence.
Qed.

(** X2. The other way round: whatever the client session sends (an
    ordinary message or the special code), the conversation
    chats/<m>_<client id> that a master session [m] reads is left as it
    was. *)
Theorem client_send_misses_master_conversation (w : World) (m : string) :
  userRole (app w) = Some client -> userId (app w) = Some HARDCODED_CLIENT_ID ->
  m <> HARDCODED_CLIENT_ID ->
  let masterChat := getChatCollectionPath appId (Some m) (Some HARDCODED_CLIENT_ID) in
  docsAt (firestore (after send w)) masterChat = docsAt (firestore w) masterChat.
Proof.
  intros Hr Hu Hm. cbv zeta. unfold docsAt. rewrite send_frame; [reflexivity |].
  unfold masterId. rewrite Hr, Hu. intros H.
  apply getChatCollectionPath_inj in H. congruence.
Qed.

End Conversations.

Lemma master_send_misses_client_conversation_sample :
  let clientChat :=
    getChatCollectionPath "app" (Some HARDCODED_CLIENT_ID) (Some HARDCODED_CLIENT_ID) in
  docsAt (firestore (after (handleSendMessage "app" "limit reached" "send error: ")
                           (masterWorld " hi " (sampleStatus 1 false)))) clientChat
  = docsAt (firestore (masterWorld " hi " (sampleStatus 1 false))) clientChat.
Proof.
  apply (master_send_misses_client_conversation "app" "limit reached" "send error: "
           (masterWorld " hi " (sampleStatus 1 false)) "master_user_1");
    [reflexivity | reflexivity | vm_compute; discriminate].
Defined.

Lemma client_send_misses_master_conversation_sample :
  let masterChat := getChatCollectionPath "app" (Some "master_user_1") (Some HARDCODED_CLIENT_ID) in
  docsAt (firestore (after (handleSendMessage "app" "limit reached" "send error: ")
                           (clientWorld " hi " (sampleStatus 1 false)))) masterChat
  = docsAt (firestore (clientWorld " hi " (sampleStatus 1 false))) masterChat.
Proof.
  apply (client_send_misses_master_conversation "app" "limit reached" "send error: "
           (clientWorld " hi " (sampleStatus 1 false)) "master_user_1");
    [reflexivity | reflexivity | vm_compute; discriminate].
Defined.

(** ** What a send leaves behind, request by request *)

Section SendOutcomes.

Variables appId limitReachedText sendErrorText : string.

Local Abbreviation send := (handleSendMessage appId limitReachedText sendErrorText).
Local Abbreviation statusPath := (getStatusDocPath appId (Some HARDCODED_CLIENT_ID)).

(** X3. The counter of the status document stays within 0 and
    [MAX_MESSAGES_BEFORE_LOCK] under every send: if the session holds a
    counter that is not negative and the stored counter is within the
    bounds, the stored counter is within the bounds afterwards, whatever the
    role, the text and the answers of the store. *)
Theorem send_keeps_counter_bounded (w : World) :
  (0 <= msgCount (clientStatus (app w)))%Z ->
  (forall st, documents (firestore w) !! statusPath = Some st ->
              (0 <= msgCount st <= MAX_MESSAGES_BEFORE_LOCK)%Z) ->
  forall st, documents (firestore (after send w)) !! statusPath = Some st ->
             (0 <= msgCount st <= MAX_MESSAGES_BEFORE_LOCK)%Z.
Proof.
  intros Hheld Hstore st. unfold after. rewrite send_cases. cbv zeta.
  destruct (negb _ || _ || _ || _); [apply Hstore |].
  destruct (isRole (userRole (app w)) client) eqn:Hrole; cbn [andb].
  - destruct (Z.leb_spec MAX_MESSAGES_BEFORE_LOCK (msgCount (clientStatus (app w))))
      as [_ | Hlt]; [apply Hstore |].
    destruct (String.eqb _ _).
    + unfold bind, request, setNewMessage, setApp, modify.
      destruct (faults w) as [| [m |] [| [m' |] rest]]; cbn;
        try apply Hstore;
        rewrite lookup_insert_eq; intros [= <-]; rewrite msgCount_mergeStatus; cbn;
        unfold MAX_MESSAGES_BEFORE_LOCK; lia.
    + unfold tryCatch, bind, request, setNewMessage, setApp, modify.
      destruct (faults w) as [| [m |] rest]; cbn;
        try apply Hstore;
        rewrite lookup_insert_eq; intros [= <-]; rewrite msgCount_mergeStatus; cbn; lia.
  - unfold tryCatch, bind, request, setNewMessage, setApp, modify.
    destruct (faults w) as [| [m |] rest]; cbn; apply Hstore.
Qed.

(** X4. An ordinary send (lines 290-311) that the store rejects: the
    handler ends normally, the store is as before, the text stays in the
    input, and the dialog 'Error' opens with the message of the store after
    the text of line 310.  This holds for a master, and for a client under
    the limit whose text is not the special code. *)
Theorem rejected_send_opens_error_dialog (w : World) (uid e : string)
    (rest : list (option string)) :
  db (app w) = true -> userId (app w) = Some uid -> uid <> "" ->
  userRole (app w) <> None ->
  trim (newMessage (app w)) <> "" ->
  (userRole (app w) = Some client ->
     (msgCount (clientStatus (app w)) < MAX_MESSAGES_BEFORE_LOCK)%Z
     /\ toUpperCase (trim (newMessage (app w))) <> SPECIAL_CODE) ->
  faults w = Some e :: rest ->
  send w
  = (Normal tt,
     withApp (withFaults w rest)
             (withModal {| isOpen := true; title := "Error";
                           message := sendErrorText +:+ e |} (app w))).
Proof.
  intros Hdb Hu Hne Hr Ht Hclient Hf. rewrite send_cases. cbv zeta.
  rewrite guard_open; trivial.
  2:{ rewrite Hu. cbn. now destruct (String.eqb_spec uid ""). }
  assert (Hl : isRole (userRole (app w)) client
               && (MAX_MESSAGES_BEFORE_LOCK <=? msgCount (clientStatus (app w)))%Z = false).
  { destruct (userRole (app w)) as [[] |] eqn:E; try reflexivity.
    destruct (Hclient eq_refl) as [Hlt _].
    change (isRole (Some client) client) with true. cbn [andb]. now apply Z.leb_gt. }
  assert (Hc : isRole (userRole (app w)) client
               && String.eqb (toUpperCase (trim (newMessage (app w)))) SPECIAL_CODE = false).
  { destruct (userRole (app w)) as [[] |] eqn:E; try reflexivity.
    destruct (Hclient eq_refl) as [_ Hcode].
    change (isRole (Some client) client) with true. cbn [andb]. now apply String.eqb_neq. }
  rewrite Hl, Hc. unfold tryCatch, bind, request. rewrite Hf. reflexivity.
Qed.

(** X5. The special code (lines 277-286) is two requests outside any [try]:
    the status document with the counter at 0, then the notice of 'SYSTEM'.
    If the store rejects the first, nothing is written and the error leaves
    the handler (no dialog opens, the text stays in the input).  If it
    fulfils the first and rejects the second, the counter is reset and the
    input is cleared, but the conversation gets no notice, and the error
    leaves the handler as well. *)
Theorem special_code_is_two_requests (w : World) (uid e : string)
    (rest : list (option string)) :
  userRole (app w) = Some client ->
  db (app w) = true -> userId (app w) = Some uid -> uid <> "" ->
  toUpperCase (trim (newMessage (app w))) = SPECIAL_CODE ->
  (msgCount (clientStatus (app w)) < MAX_MESSAGES_BEFORE_LOCK)%Z ->
  (faults w = Some e :: rest ->
     send w = (Thrown (StoreError e), withFaults w rest))
  /\ (faults w = None :: Some e :: rest ->
      let w' := after send w in
      completion send w = Thrown (StoreError e)
      /\ documents (firestore w')
         = <[statusPath := mergeStatus (documents (firestore w) !! statusPath)
                             (withCount (clientStatus (app w)) 0)]> (documents (firestore w))
      /\ collections (firestore w') = collections (firestore w)
      /\ newMessage (app w') = ""
      /\ modal (app w') = modal (app w)).
Proof.
  intros Hr Hdb Hu Hne Hcode Hc. unfold completion, after. rewrite send_cases. cbv zeta.
  rewrite guard_open; trivial.
  2:{ rewrite Hu. cbn. now destruct (String.eqb_spec uid ""). }
  2:{ rewrite Hr. discriminate. }
  2:{ now apply toUpperCase_code_not_blank. }
  rewrite Hr. change (isRole (Some client) client) with true. cbn [andb].
  destruct (Z.leb_spec MAX_MESSAGES_BEFORE_LOCK (msgCount (clientStatus (app w)))); [lia |].
  rewrite Hcode. change (String.eqb SPECIAL_CODE SPECIAL_CODE) with true. cbv iota.
  unfold bind, request, setNewMessage, setApp, modify.
  split; intros ->; cbn; repeat split.
Qed.

End SendOutcomes.

Lemma send_keeps_counter_bounded_sample :
  let stored :=
    documents (firestore (after (handleSendMessage "app" "limit reached" "send error: ")
                                (clientWorld " hi " (sampleStatus 2 false))))
      !! getStatusDocPath "app" (Some HARDCODED_CLIENT_ID) in
  (0 <= msgCount (default noStatus stored) <= MAX_MESSAGES_BEFORE_LOCK)%Z.
Proof.
  cbv zeta.
  apply (send_keeps_counter_bounded "app" "limit reached" "send error: "
           (clientWorld " hi " (sampleStatus 2 false))).
  - vm_compute. discriminate.
  - intros st H. vm_compute in H. injection H as <-. vm_compute. split; discriminate.
  - vm_compute. reflexivity.
Defined.

Lemma rejected_send_opens_error_dialog_sample :
  let w := withFaults (masterWorld " hi " (sampleStatus 1 false)) [Some "unavailable"] in
  handleSendMessage "app" "limit reached" "send error: " w
  = (Normal tt,
     withApp (withFaults w [])
             (withModal {| isOpen := true; title := "Error";
                           message := "send error: unavailable" |} (app w))).
Proof.
  apply (rejected_send_opens_error_dialog "app" "limit reached" "send error: "
           (withFaults (masterWorld " hi " (sampleStatus 1 false)) [Some "unavailable"])
           "master_user_1" "unavailable" []).
  - reflexivity.
  - reflexivity.
  - vm_compute; discriminate.
  - vm_compute; discriminate.
  - vm_compute; discriminate.
  - vm_compute; discriminate.
  - reflexivity.
Defined.

Lemma special_code_is_two_requests_sample :
  let w := withFaults (clientWorld "unlock123" (sampleStatus 2 false))
                      [None; Some "unavailable"] in
  let w' := after (handleSendMessage "app" "limit reached" "send error: ") w in
  msgCount <$> documents (firestore w') !! getStatusDocPath "app" (Some HARDCODED_CLIENT_ID)
  = Some 0%Z
  /\ collections (firestore w') = collections (firestore w).
Proof.
  cbv zeta.
  destruct (special_code_is_two_requests "app" "limit reached" "send error: "
              (withFaults (clientWorld "unlock123" (sampleStatus 2 false))
                          [None; Some "unavailable"])
              HARDCODED_CLIENT_ID "unavailable" []) as [_ Hsecond].
  - reflexivity.
  - reflexivity.
  - reflexivity.
  - vm_compute; discriminate.
  - reflexivity.
  - reflexivity.
  - destruct (Hsecond eq_refl) as (_ & Hdocs & Hcolls & _).
    split; [| exact Hcolls]. rewrite Hdocs. rewrite lookup_insert_eq. reflexivity.
Defined.

(** ** The listener of the status document *)

Section Listener.

Variables appId limitReachedText sendErrorText : string.

Local Abbreviation send := (handleSendMessage appId limitReachedText sendErrorText).
Local Abbreviation observe := (observeStatus appId).
Local Abbreviation statusPath := (getStatusDocPath appId (Some HARDCODED_CLIENT_ID)).

(** Lines 144-158 for a session that is not a client reading
    [forceLogout]: only the status the session holds changes. *)
Lemma observe_sync (w : World) (uid : string) :
  db (app w) = true -> userId (app w) = Some uid -> uid <> "" ->
  userRole (app w) <> None ->
  let stored := default noStatus (documents (firestore w) !! statusPath) in
  isRole (userRole (app w)) client && forceLogout stored = false ->
  observe w = (Normal tt, withApp w (withClientStatus stored (app w))).
Proof.
  intros Hdb Hu Hne Hr. cbv zeta. intros Hforce.
  unfold observeStatus, bind, getWorld. cbv beta iota zeta.
  unfold masterId. rewrite Hdb, Hu. cbn [negb orb falsy].
  destruct (String.eqb_spec uid ""); [contradiction |].
  destruct (userRole (app w)) as [r |] eqn:Hrole; [| contradiction].
  assert (Hm : falsy (match r with master => Some uid | client => Some uid end) = false).
  { destruct r; cbn; now destruct (String.eqb_spec uid ""). }
  rewrite Hm. cbn [orb].
  unfold statusSnapshot, bind, getWorld. cbv beta iota zeta.
  destruct (documents (firestore w) !! statusPath) as [st |].
  - change (default noStatus (Some st)) with st in *.
    cbn [setClientStatus setApp modify]. cbv beta iota. rewrite Hrole, Hforce. reflexivity.
  - reflexivity.
Qed.

(** X6. A snapshot of the status document, handed to a master session
    whose listener is subscribed, replaces the status the session holds by
    the stored one, whatever its [forceLogout], or by the logged-out status
    with counter 0 when the document does not exist (line 157); the master
    stays signed in with its identity and role, and the store is not
    written.  When the document does not exist the form is taken off the
    page. *)
Theorem snapshot_updates_master_session (w : World) (uid : string) :
  userRole (app w) = Some master ->
  db (app w) = true -> userId (app w) = Some uid -> uid <> "" ->
  let w' := after observe w in
  clientStatus (app w') = default noStatus (documents (firestore w) !! statusPath)
  /\ userId (app w') = Some uid /\ userRole (app w') = Some master
  /\ currentUser w' = currentUser w
  /\ firestore w' = firestore w
  /\ (documents (firestore w) !! statusPath = None -> formRendered (app w') = false).
Proof.
  intros Hr Hdb Hu Hne. cbv zeta. unfold after.
  rewrite (observe_sync w uid); trivial.
  2:{ rewrite Hr. discriminate. }
  2:{ now rewrite Hr. }
  cbn. repeat split; trivial.
  intros ->. unfold formRendered, isClientLoggedIn. cbn. now rewrite !andb_false_r.
Qed.

(** An ordinary send that the store fulfils, as a whole world. *)
Lemma accepted_send_world (w : World) (uid : string) :
  db (app w) = true -> userId (app w) = Some uid -> uid <> "" ->
  userRole (app w) <> None ->
  trim (newMessage (app w)) <> "" ->
  (userRole (app w) = Some client ->
     (msgCount (clientStatus (app w)) < MAX_MESSAGES_BEFORE_LOCK)%Z
     /\ toUpperCase (trim (newMessage (app w))) <> SPECIAL_CODE) ->
  fulfilled w = true ->
  let fs := firestore w in
  let held := clientStatus (app w) in
  let chat := getChatCollectionPath appId (Some uid) (Some HARDCODED_CLIENT_ID) in
  let doc := {| text := trim (newMessage (app w)); senderId := uid; timestamp := clock w |} in
  send w
  = (Normal tt,
     withApp
       (withStore (withFaults w (tail (faults w)))
          {| collections := <[chat := (docsAt fs chat ++ [(nextDocId fs, doc)])%list]> (collections fs);
             documents :=
               if isRole (userRole (app w)) client then
                 <[statusPath := mergeStatus (documents fs !! statusPath)
                                   (withCount held (msgCount held + 1))]> (documents fs)
               else documents fs;
             nextDocId := S (nextDocId fs) |})
       (withNewMessage "" (app w))).
Proof.
  intros Hdb Hu Hne Hr Ht Hclient Hf. cbv zeta. rewrite send_cases. cbv zeta.
  rewrite guard_open; trivial.
  2:{ rewrite Hu. cbn. now destruct (String.eqb_spec uid ""). }
  assert (Hl : isRole (userRole (app w)) client
               && (MAX_MESSAGES_BEFORE_LOCK <=? msgCount (clientStatus (app w)))%Z = false).
  { destruct (userRole (app w)) as [[] |] eqn:E; try reflexivity.
    destruct (Hclient eq_refl) as [Hlt _].
    change (isRole (Some client) client) with true. cbn [andb]. now apply Z.leb_gt. }
  assert (Hc : isRole (userRole (app w)) client
               && String.eqb (toUpperCase (trim (newMessage (app w)))) SPECIAL_CODE = false).
  { destruct (userRole (app w)) as [[] |] eqn:E; try reflexivity.
    destruct (Hclient eq_refl) as [_ Hcode].
    change (isRole (Some client) client) with true. cbn [andb]. now apply String.eqb_neq. }
  rewrite Hl, Hc. unfold masterId. rewrite Hu.
  unfold fulfilled in Hf.
  destruct (userRole (app w)) as [[] |]; [| | contradiction];
    unfold tryCatch, bind, request, setNewMessage, setApp, modify;
    destruct (faults w) as [| [m |] rest]; try discriminate; reflexivity.
Qed.

(** X7. A client under the limit sends an ordinary message, the store
    fulfils the batch and the listener hands the new status document to the
    session: the session now holds the counter it held plus one, it is
    still the client, and it may send again exactly when it is logged in and
    the new counter is under [MAX_MESSAGES_BEFORE_LOCK].  So the send that
    brings the counter to the limit disables the input and the Send
    button, and a submit after it changes nothing. *)
Theorem client_send_then_snapshot (w : World) (uid : string) :
  userRole (app w) = Some client ->
  db (app w) = true -> userId (app w) = Some uid -> uid <> "" ->
  trim (newMessage (app w)) <> "" ->
  (msgCount (clientStatus (app w)) < MAX_MESSAGES_BEFORE_LOCK)%Z ->
  toUpperCase (trim (newMessage (app w))) <> SPECIAL_CODE ->
  forceLogout (clientStatus (app w)) = false ->
  fulfilled w = true ->
  let held := clientStatus (app w) in
  let w' := after observe (after send w) in
  msgCount (clientStatus (app w')) = (msgCount held + 1)%Z
  /\ isLoggedIn (clientStatus (app w')) = isLoggedIn held
  /\ userRole (app w') = Some client
  /\ (canClientSend (app w') = true
      <-> isLoggedIn held = true /\ (msgCount held + 1 < MAX_MESSAGES_BEFORE_LOCK)%Z)
  /\ ((msgCount held + 1)%Z = MAX_MESSAGES_BEFORE_LOCK ->
      sendDisabled (app w') = true
      /\ submitForm appId limitReachedText sendErrorText w' = (Normal tt, w')).
Proof.
  intros Hr Hdb Hu Hne Ht Hlt Hcode Hforce Hf. cbv zeta.
  assert (Hsent : after send w = snd (send w)) by reflexivity.
  rewrite (accepted_send_world w uid) in Hsent;
    trivial; [| rewrite Hr; discriminate | now intros _].
  cbn [snd] in Hsent. rewrite Hr in Hsent.
  change (isRole (Some client) client) with true in Hsent. cbv iota in Hsent.
  rewrite Hsent. clear Hsent. set (sent := withApp _ _).
  assert (Hseen : after observe sent = snd (observe sent)) by reflexivity.
  rewrite (observe_sync sent uid) in Hseen; subst sent;
    cbn [app withApp db userId userRole withNewMessage];
    trivial; [| rewrite Hr; discriminate | ].
  2:{ cbn. rewrite lookup_insert_eq. cbn.
      destruct (documents (firestore w) !! statusPath); cbn; now rewrite Hforce, andb_false_r. }
  rewrite Hseen. clear Hseen.
  cbn. rewrite lookup_insert_eq. cbn.
  set (merged := mergeStatus _ _).
  assert (Hcount : msgCount merged = (msgCount (clientStatus (app w)) + 1)%Z)
    by (subst merged; now rewrite msgCount_mergeStatus).
  assert (Hin : isLoggedIn merged = isLoggedIn (clientStatus (app w)))
    by (subst merged; now destruct (documents (firestore w) !! statusPath)).
  assert (Hcan : forall a : App, clientStatus a = merged ->
            (canClientSend a = true
             <-> isLoggedIn (clientStatus (app w)) = true
                 /\ (msgCount (clientStatus (app w)) + 1 < MAX_MESSAGES_BEFORE_LOCK)%Z)).
  { intros a Ha. rewrite canClientSend_spec, Ha, Hcount, Hin. reflexivity. }
  split; [exact Hcount |]. split; [exact Hin |]. split; [exact Hr |].
  split; [now apply Hcan |].
  intros Hmax.
  assert (Hdis : sendDisabled (withClientStatus merged (withNewMessage "" (app w))) = true).
  { unfold sendDisabled. cbn. rewrite Hr.
    change (isRole (Some client) client) with true. cbn [andb].
    destruct (canClientSend _) eqn:E; [| reflexivity].
    apply Hcan in E; [| reflexivity]. lia. }
  split; [exact Hdis |].
  unfold submitForm, bind, getWorld. cbn [app withApp]. rewrite Hdis.
  now rewrite andb_false_r.
Qed.

End Listener.

Lemma snapshot_updates_master_session_sample :
  let w := masterWorld "" noStatus in
  let w' := after (observeStatus "app") (withStore w (sampleStore (sampleStatus 2 true))) in
  clientStatus (app w') = sampleStatus 2 true
  /\ userId (app w') = Some "master_user_1"
  /\ userRole (app w') = Some master.
Proof.
  cbv zeta.
  destruct (snapshot_updates_master_session "app"
              (withStore (masterWorld "" noStatus) (sampleStore (sampleStatus 2 true)))
              "master_user_1") as (Hheld & Hid & Hrole & _).
  - reflexivity.
  - reflexivity.
  - reflexivity.
  - vm_compute; discriminate.
  - refine (conj _ (conj Hid Hrole)). rewrite Hheld. reflexivity.
Defined.

Lemma client_send_then_snapshot_sample :
  let w := clientWorld "third" (sampleStatus 2 false) in
  let w' := after (observeStatus "app")
                  (after (handleSendMessage "app" "limit reached" "send error: ") w) in
  msgCount (clientStatus (app w')) = 3%Z
  /\ sendDisabled (app w') = true
  /\ submitForm "app" "limit reached" "send error: " w' = (Normal tt, w').
Proof.
  cbv zeta.
  destruct (client_send_then_snapshot "app" "limit reached" "send error: "
              (clientWorld "third" (sampleStatus 2 false)) HARDCODED_CLIENT_ID)
    as (Hcount & _ & _ & _ & Hlock).
  - reflexivity.
  - reflexivity.
  - reflexivity.
  - vm_compute; discriminate.
  - vm_compute; discriminate.
  - reflexivity.
  - vm_compute; discriminate.
  - reflexivity.
  - reflexivity.
  - destruct (Hlock eq_refl) as [Hdis Hsub].
    exact (conj Hcount (conj Hdis Hsub)).
Defined.

(** ** The forced logout of the master *)

Section ForceLogout.

Variables appId forceSentText forceErrorText : string.

Local Abbreviation force := (handleMasterForceLogout appId forceSentText forceErrorText).
Local Abbreviation observe := (observeStatus appId).
Local Abbreviation statusPath := (getStatusDocPath appId (Some HARDCODED_CLIENT_ID)).

(** Lines 334-348, branch by branch. *)
Lemma force_cases (w : World) :
  force w =
    if negb (isRole (userRole (app w)) master) || negb (db (app w)) then (Normal tt, w)
    else
      match faults w, documents (firestore w) !! statusPath with
      | Some e :: rest, _ =>
          (Normal tt,
           withApp (withFaults w rest)
                   (withModal {| isOpen := true; title := "Error";
                                 message := forceErrorText +:+ e |} (app w)))
      | fate, None =>
          (Normal tt,
           withApp (withFaults w (tail fate))
                   (withModal {| isOpen := true; title := "Error";
                                 message := forceErrorText +:+ "not-found" |} (app w)))
      | fate, Some old =>
          (Normal tt,
           withApp
             (withStore (withFaults w (tail fate))
                {| collections := collections (firestore w);
                   documents := <[statusPath := withForce old true]> (documents (firestore w));
                   nextDocId := nextDocId (firestore w) |})
             (withModal {| isOpen := true; title := "Client Logout Initiated";
                           message := forceSentText |} (app w)))
      end.
Proof.
  unfold handleMasterForceLogout, bind, getWorld. cbv beta iota zeta.
  destruct (negb _ || negb _); [reflexivity |].
  unfold tryCatch, updateDoc, identifier.
  cbn [existsb firestoreImports String.eqb Ascii.eqb Bool.eqb orb].
  unfold bind, request, applyBatch, applyWrite.
  destruct (faults w) as [| [e |] rest];
    destruct (documents (firestore w) !! statusPath); reflexivity.
Qed.

(** X8. The master presses the logout button while the status document of
    the client exists and the store fulfils the update: of the store, only
    the field [forceLogout] of that document changes (it becomes true;
    [isLoggedIn], [msgCount] and [lastLogin] keep their values, and no
    message is touched), and the dialog 'Client Logout Initiated' opens. *)
Theorem force_logout_sets_only_the_flag (w : World) (old : ClientStatus) :
  userRole (app w) = Some master -> db (app w) = true ->
  documents (firestore w) !! statusPath = Some old ->
  fulfilled w = true ->
  let w' := after force w in
  documents (firestore w') = <[statusPath := withForce old true]> (documents (firestore w))
  /\ collections (firestore w') = collections (firestore w)
  /\ (exists new, documents (firestore w') !! statusPath = Some new
                  /\ forceLogout new = true /\ isLoggedIn new = isLoggedIn old
                  /\ msgCount new = msgCount old /\ lastLogin new = lastLogin old)
  /\ modal (app w') = {| isOpen := true; title := "Client Logout Initiated";
                         message := forceSentText |}.
Proof.
  intros Hr Hdb Hdoc Hf. cbv zeta. unfold after. rewrite force_cases.
  rewrite Hr, Hdb, Hdoc. change (isRole (Some master) master) with true. cbn [negb orb].
  unfold fulfilled in Hf.
  destruct (faults w) as [| [e |] rest]; try discriminate; cbn;
    (split; [reflexivity |]; split; [reflexivity |]; split; [| reflexivity];
     exists (withForce old true); rewrite lookup_insert_eq; repeat split).
Qed.

(** X9. The button fails safe.  When the session is not a master, or has no
    store handle, the handler does nothing at all.  When the status
    document does not exist ([updateDoc] refuses to create it) or the store
    rejects the request, the store is left as it was and the dialog 'Error'
    opens; the handler ends normally in every case. *)
Theorem force_logout_failures (w : World) :
  (userRole (app w) <> Some master \/ db (app w) = false -> force w = (Normal tt, w))
  /\ (userRole (app w) = Some master -> db (app w) = true ->
      documents (firestore w) !! statusPath = None \/ fulfilled w = false ->
      let w' := after force w in
      completion force w = Normal tt
      /\ firestore w' = firestore w
      /\ isOpen (modal (app w')) = true
      /\ title (modal (app w')) = "Error").
Proof.
  split.
  - intros Hno. rewrite force_cases.
    destruct Hno as [Hr | Hdb].
    + unfold isRole. now rewrite bool_decide_eq_false_2.
    + rewrite Hdb. cbn. now rewrite orb_true_r.
  - intros Hr Hdb Hbad. cbv zeta. unfold completion, after. rewrite force_cases.
    rewrite Hr, Hdb. change (isRole (Some master) master) with true. cbn [negb orb].
    unfold fulfilled in Hbad.
    destruct (faults w) as [| [e |] rest];
      destruct (documents (firestore w) !! statusPath);
      destruct Hbad as [Hbad | Hbad]; try discriminate; cbn; repeat split.
Qed.

(** X10. From the button to the client.  A master sets the flag (the status
    document exists, the store fulfils the update); a client session over
    the same store is then handed the snapshot: it signs out of the service
    and drops its identity and role, and it writes nothing to the store on
    the way. *)
Theorem force_logout_reaches_client (wm wc : World) (old : ClientStatus) (uid : string) :
  userRole (app wm) = Some master -> db (app wm) = true ->
  documents (firestore wm) !! statusPath = Some old ->
  fulfilled wm = true ->
  userRole (app wc) = Some client ->
  db (app wc) = true -> auth (app wc) = true ->
  userId (app wc) = Some uid -> uid <> "" ->
  firestore wc = firestore (after force wm) ->
  let wc' := after observe wc in
  currentUser wc' = None /\ userId (app wc') = None /\ userRole (app wc') = None
  /\ firestore wc' = firestore wc.
Proof.
  intros Hrm Hdbm Hdoc Hf Hrc Hdbc Hauth Hu Hne Hshared. cbv zeta.
  assert (Hflag : documents (firestore wc) !! statusPath = Some (withForce old true)).
  { rewrite Hshared. unfold after. rewrite force_cases.
    rewrite Hrm, Hdbm, Hdoc. change (isRole (Some master) master) with true. cbn [negb orb].
    unfold fulfilled in Hf.
    destruct (faults wm) as [| [e |] rest]; try discriminate; cbn;
      now rewrite lookup_insert_eq. }
  destruct (forced_logout_signs_out appId wc (withForce old true) uid)
    as (Hout & Hid & Hrole); trivial.
  repeat split; trivial. apply observeStatus_keeps_store.
Qed.

End ForceLogout.

Lemma force_logout_sets_only_the_flag_sample :
  let w := masterWorld "" (sampleStatus 2 false) in
  let w' := after (handleMasterForceLogout "app" "logout requested" "logout error: ") w in
  documents (firestore w') !! getStatusDocPath "app" (Some HARDCODED_CLIENT_ID)
  = Some (sampleStatus 2 true)
  /\ collections (firestore w') = collections (firestore w).
Proof.
  cbv zeta.
  destruct (force_logout_sets_only_the_flag "app" "logout requested" "logout error: "
              (masterWorld "" (sampleStatus 2 false)) (sampleStatus 2 false))
    as (Hdocs & Hcolls & _).
  - reflexivity.
  - reflexivity.
  - reflexivity.
  - reflexivity.
  - split; [| exact Hcolls]. rewrite Hdocs. rewrite lookup_insert_eq. reflexivity.
Defined.

Lemma force_logout_failures_sample :
  let w := sampleWorld (sampleApp (Some master) (Some "master_user_1") "" noStatus) staleStore in
  let w' := after (handleMasterForceLogout "app" "logout requested" "logout error: ") w in
  handleMasterForceLogout "app" "logout requested" "logout error: "
    (clientWorld "" (sampleStatus 1 false))
  = (Normal tt, clientWorld "" (sampleStatus 1 false))
  /\ firestore w' = firestore w
  /\ title (modal (app w')) = "Error".
Proof.
  cbv zeta.
  destruct (force_logout_failures "app" "logout requested" "logout error: "
              (clientWorld "" (sampleStatus 1 false))) as [Hidle _].
  destruct (force_logout_failures "app" "logout requested" "logout error: "
              (sampleWorld (sampleApp (Some master) (Some "master_user_1") "" noStatus)
                           staleStore)) as [_ Hfail].
  split.
  - apply Hidle. left. vm_compute. discriminate.
  - destruct Hfail as (_ & Hstore & _ & Htitle).
    + reflexivity.
    + reflexivity.
    + left. reflexivity.
    + exact (conj Hstore Htitle).
Defined.

Lemma force_logout_reaches_client_sample :
  let wm := masterWorld "" (sampleStatus 2 false) in
  let wc := withStore (clientWorld "" (sampleStatus 2 false))
              (firestore (after (handleMasterForceLogout "app" "logout requested"
                                   "logout error: ") wm)) in
  let wc' := after (observeStatus "app") wc in
  currentUser wc' = None /\ userId (app wc') = None /\ userRole (app wc') = None
  /\ firestore wc' = firestore wc.
Proof.
  apply (force_logout_reaches_client "app" "logout requested" "logout error: "
           (masterWorld "" (sampleStatus 2 false)) _ (sampleStatus 2 false)
           HARDCODED_CLIENT_ID);
    try reflexivity.
  vm_compute; discriminate.
Defined.

(** ** Logging in *)

Section LoggingIn.

Variable appId : string.

Local Abbreviation login := (handleLogin appId).
Local Abbreviation observe := (observeStatus appId).

(** Lines 188-216 for a client that has its handle and identity. *)
Lemma login_client_world (w : World) (uid : string) :
  userRole (app w) = Some client ->
  db (app w) = true -> userId (app w) = Some uid -> uid <> "" ->
  let cleanup :=
    [Logged "Client chat data reset/deleted on successful login.";
     Failed "Error deleting client chat data:" (ReferenceError "getDocs")] in
  login w =
    match faults w with
    | Some e :: rest =>
        (Normal tt,
         withConsole (withFaults w rest)
           (Failed "Error during login status update:" (StoreError e)
              :: cleanup ++ console w)%list)
    | fate =>
        (Normal tt,
         withConsole
           (withStore (withFaults w (tail fate))
              {| collections := collections (firestore w);
                 documents :=
                   <[getStatusDocPath appId (Some uid) :=
                       {| isLoggedIn := true; msgCount := 0; lastLogin := Some (clock w);
                          forceLogout := false |}]> (documents (firestore w));
                 nextDocId := nextDocId (firestore w) |})
           (Logged "Login status updated." :: cleanup ++ console w)%list)
    end.
Proof.
  intros Hr Hdb Hu Hne. cbv zeta.
  unfold handleLogin, bind, getWorld. cbv beta iota zeta.
  unfold masterId. rewrite Hdb, Hu, Hr. cbn [negb orb falsy].
  destruct (String.eqb_spec uid ""); [contradiction |].
  change (isRole (Some client) client) with true.
  unfold writeBatch, identifier. cbn [existsb firestoreImports String.eqb Ascii.eqb Bool.eqb orb].
  unfold ret at 1, now. cbv beta iota zeta. rewrite deleteClientChatData_eq.
  cbn [negb orb falsy]. destruct (String.eqb_spec uid ""); [contradiction |]. cbn [orb].
  unfold tryCatch, commit, request, bind, consoleLog, consoleError, modify, ret.
  cbn [faults withConsole firestore].
  destruct (faults w) as [| [e |] rest]; reflexivity.
Qed.

(** X11. Only a client writes at login.  For a master (or a session
    without role) [handleLogin] sends an empty batch: whatever the store
    answers, no document is written or deleted and the handler ends
    normally. *)
Theorem login_of_master_writes_nothing (w : World) :
  userRole (app w) <> Some client ->
  firestore (after login w) = firestore w /\ completion login w = Normal tt.
Proof.
  intros Hr. unfold after, completion, handleLogin, bind, getWorld. cbv beta iota zeta.
  destruct (negb (db (app w)) || falsy (userId (app w))); [split; reflexivity |].
  unfold isRole. rewrite bool_decide_eq_false_2 by exact Hr.
  unfold writeBatch, identifier. cbn [existsb firestoreImports String.eqb Ascii.eqb Bool.eqb orb].
  unfold ret, tryCatch, commit, request, bind, consoleLog, consoleError, modify.
  destruct (faults w) as [| [e |] rest]; split; reflexivity.
Qed.

(** X12. The client (its identity is [HARDCODED_CLIENT_ID]) logs in, the
    store fulfils the write, and the listener hands the status document to
    the session.  Whatever the document held before (a counter at the
    limit, a pending [forceLogout]) the session is now logged in with
    counter 0 and the time of the login, it stays signed in, the form is on
    the page and its controls are enabled. *)
Theorem client_login_then_snapshot (w : World) :
  userRole (app w) = Some client ->
  db (app w) = true -> loading (app w) = false ->
  userId (app w) = Some HARDCODED_CLIENT_ID ->
  fulfilled w = true ->
  let w' := after observe (after login w) in
  clientStatus (app w')
  = {| isLoggedIn := true; msgCount := 0; lastLogin := Some (clock w); forceLogout := false |}
  /\ userId (app w') = Some HARDCODED_CLIENT_ID
  /\ formRendered (app w') = true
  /\ sendDisabled (app w') = false.
Proof.
  intros Hr Hdb Hl Hu Hf. cbv zeta.
  assert (Hin : after login w = snd (login w)) by reflexivity.
  rewrite (login_client_world w HARDCODED_CLIENT_ID) in Hin; trivial; [| discriminate].
  unfold fulfilled in Hf.
  assert (Hin' : after login w
                 = withConsole
                     (withStore (withFaults w (tail (faults w)))
                        {| collections := collections (firestore w);
                           documents :=
                             <[getStatusDocPath appId (Some HARDCODED_CLIENT_ID) :=
                                 {| isLoggedIn := true; msgCount := 0;
                                    lastLogin := Some (clock w); forceLogout := false |}]>
                               (documents (firestore w));
                           nextDocId := nextDocId (firestore w) |})
                     ([Logged "Login status updated.";
                       Logged "Client chat data reset/deleted on successful login.";
                       Failed "Error deleting client chat data:" (ReferenceError "getDocs")]
                      ++ console w)%list).
  { rewrite Hin. destruct (faults w) as [| [e |] rest]; try discriminate; reflexivity. }
  rewrite Hin'. clear Hin Hin'. set (inside := withConsole _ _).
  assert (Hseen : after observe inside = snd (observe inside)) by reflexivity.
  rewrite (observe_sync appId inside HARDCODED_CLIENT_ID) in Hseen; subst inside;
    cbn [app withConsole withStore withFaults]; trivial;
    [| discriminate | rewrite Hr; discriminate | ].
  2:{ cbn. rewrite lookup_insert_eq. cbn. now rewrite andb_false_r. }
  rewrite Hseen. clear Hseen. cbn. rewrite lookup_insert_eq. cbn.
  split; [reflexivity |]. split; [exact Hu |].
  unfold formRendered, sendDisabled, canClientSend, isClientLoggedIn. cbn.
  rewrite Hl, Hu, Hr. split; reflexivity.
Qed.

(** X13. A login of the client that the store rejects: the store is left
    as it was, the handler ends normally, no dialog opens, and the console
    gets the line 'Error during login status update:' with the error of the
    store. *)
Theorem rejected_login_is_only_logged (w : World) (uid e : string)
    (rest : list (option string)) :
  userRole (app w) = Some client ->
  db (app w) = true -> userId (app w) = Some uid -> uid <> "" ->
  faults w = Some e :: rest ->
  let w' := after login w in
  completion login w = Normal tt
  /\ firestore w' = firestore w
  /\ app w' = app w
  /\ head (console w') = Some (Failed "Error during login status update:" (StoreError e)).
Proof.
  intros Hr Hdb Hu Hne Hf. cbv zeta. unfold completion, after.
  rewrite (login_client_world w uid); trivial. rewrite Hf. repeat split.
Qed.

End LoggingIn.

Lemma login_of_master_writes_nothing_sample :
  firestore (after (handleLogin "app") (masterWorld "" (sampleStatus 1 false)))
  = firestore (masterWorld "" (sampleStatus 1 false)).
Proof.
  apply (login_of_master_writes_nothing "app" (masterWorld "" (sampleStatus 1 false))).
  vm_compute. discriminate.
Defined.

Lemma client_login_then_snapshot_sample :
  let w' := after (observeStatus "app") (after (handleLogin "app") loginWorld) in
  clientStatus (app w')
  = {| isLoggedIn := true; msgCount := 0; lastLogin := Some 1000%N; forceLogout := false |}
  /\ formRendered (app w') = true
  /\ sendDisabled (app w') = false.
Proof.
  cbv zeta.
  destruct (client_login_then_snapshot "app" loginWorld) as (Hheld & _ & Hform & Hsend);
    try reflexivity.
  exact (conj Hheld (conj Hform Hsend)).
Defined.

Lemma rejected_login_is_only_logged_sample :
  let w := withFaults loginWorld [Some "unavailable"] in
  firestore (after (handleLogin "app") w) = firestore w
  /\ head (console (after (handleLogin "app") w))
     = Some (Failed "Error during login status update:" (StoreError "unavailable")).
Proof.
  cbv zeta.
  destruct (rejected_login_is_only_logged "app" (withFaults loginWorld [Some "unavailable"])
              HARDCODED_CLIENT_ID "unavailable" []) as (_ & Hstore & _ & Hline).
  - reflexivity.
  - reflexivity.
  - reflexivity.
  - vm_compute; discriminate.
  - reflexivity.
  - exact (conj Hstore Hline).
Defined.

(** ** More on the hold button and on logging out *)

Section HoldButton.

Variable appId : string.

Local Abbreviation logout := (handleLogout appId).
Local Abbreviation pass := (elapse appId).

(** Two presses with no release between them, then a release. *)
Lemma press_press_release (w : World) (gap : N) :
  userRole (app w) = Some client -> timers w = [] -> (gap < 3000)%N ->
  after handleTouchEnd
    (after handleTouchStart (after (pass gap) (after handleTouchStart w)))
  = withApp
      (withTimers (withClock w (clock w + gap)%N)
         [mkTimer (nextTimerId w) (clock w + 3000)%N (closureOf (app w))]
         (S (S (nextTimerId w))))
      (withIsTouching false (withTouchTimerRef (Some (S (nextTimerId w))) (app w))).
Proof.
  intros Hr Ht Hgap. destruct w as [a fs u c ts nt fl co]. cbn in Hr, Ht. subst ts.
  set (w := mkWorld a fs u c [] nt fl co).
  assert (H1 : after handleTouchStart w = snd (handleTouchStart w)) by reflexivity.
  rewrite (handleTouchStart_client w) in H1 by exact Hr. cbn [snd] in H1.
  rewrite H1. clear H1. set (w1 := withApp _ _).
  assert (H2 : after (pass gap) w1 = snd (pass gap w1)) by reflexivity.
  rewrite (elapse_none appId gap w1) in H2 by (cbn; constructor; [cbn; lia | constructor]).
  cbn [snd] in H2. rewrite H2. clear H2. set (w2 := withClock _ _).
  assert (H3 : after handleTouchStart w2 = snd (handleTouchStart w2)) by reflexivity.
  rewrite (handleTouchStart_client w2) in H3 by exact Hr. cbn [snd] in H3.
  rewrite H3. clear H3. set (w3 := withApp _ _).
  unfold after. rewrite (handleTouchEnd_client w3) by exact Hr. cbn.
  rewrite decide_True by lia. rewrite decide_False by auto. reflexivity.
Qed.

(** X14. [touchTimerRef] remembers one timer.  When the client presses the
    hold button twice with no release between (the second press within
    3000 ms of the first), the release clears the timer of the second press
    only: the timer of the first press is still pending, and it fires 3000
    ms after the first press although the button has been released, logging
    the session out. *)
Theorem second_press_orphans_first_timer (w : World) (gap later : N) :
  userRole (app w) = Some client -> timers w = [] -> (gap < 3000)%N ->
  let released :=
    after handleTouchEnd
      (after handleTouchStart (after (pass gap) (after handleTouchStart w))) in
  timers released = [mkTimer (nextTimerId w) (clock w + 3000)%N (closureOf (app w))]
  /\ isTouching (app released) = false
  /\ ((3000 <= gap + later)%N ->
      expirations (after (pass later) released) = S (expirations w)
      /\ userId (app (after (pass later) released)) = None
      /\ timers (after (pass later) released) = []).
Proof.
  intros Hr Ht Hgap. cbv zeta. rewrite press_press_release by trivial.
  split; [reflexivity |]. split; [reflexivity |]. intros Hlate.
  set (released := withApp _ _).
  assert (Hfire : after (pass later) released = snd (pass later released)) by reflexivity.
  erewrite elapse_single in Hfire; [| subst released; cbn; reflexivity | subst released; cbn; lia].
  rewrite Hfire. clear Hfire. cbn [snd env].
  set (cl := closureOf (app w)). set (w2 := withConsole _ _).
  destruct (handleLogout_frame appId cl w2) as (_ & _ & Hts & _ & _ & Hex).
  destruct (handleLogout_session appId cl w2) as (_ & Hu & _ & _).
  assert (Hw2 : expirations w2 = S (expirations w)) by reflexivity.
  repeat split.
  - change (expirations (after (logout cl) w2) = S (expirations w)). congruence.
  - exact Hu.
  - change (timers (after (logout cl) w2) = []). rewrite Hts. reflexivity.
Qed.

(** X15. Logging out, by the button, the timer or the listener, never
    fails and never reaches the store: [handleLogout] ends normally, sends
    no request (the deletion it attempts stops at the unbound [getDocs]),
    leaves every document in place, and leaves the session without
    identity and role.  The service is told to sign out exactly when the
    sign-in handle was set. *)
Theorem logout_never_reaches_store (cl : Closure) (w : World) :
  let w' := after (logout cl) w in
  completion (logout cl) w = Normal tt
  /\ firestore w' = firestore w
  /\ faults w' = faults w
  /\ userId (app w') = None /\ userRole (app w') = None
  /\ currentUser w' = (if c_auth cl then None else currentUser w).
Proof.
  cbv zeta. unfold completion, after, handleLogout, bind.
  destruct (c_auth cl); cbn; [| repeat split].
  destruct (c_db cl && isString (c_userId cl) HARDCODED_CLIENT_ID); cbn; [| repeat split].
  rewrite deleteClientChatData_eq.
  destruct (negb (c_db cl) || _ || _); cbn; repeat split.
Qed.

End HoldButton.

Lemma second_press_orphans_first_timer_sample :
  let w := clientWorld "" (sampleStatus 1 false) in
  let released :=
    after handleTouchEnd
      (after handleTouchStart (after (elapse "app" 1000%N) (after handleTouchStart w))) in
  List.length (timers released) = 1
  /\ expirations (after (elapse "app" 2000%N) released) = 1
  /\ userId (app (after (elapse "app" 2000%N) released)) = None.
Proof.
  cbv zeta.
  destruct (second_press_orphans_first_timer "app" (clientWorld "" (sampleStatus 1 false))
              1000%N 2000%N eq_refl eq_refl eq_refl) as (Hts & _ & Hfire).
  destruct Hfire as (Hex & Hid & _); [vm_compute; discriminate |].
  refine (conj _ (conj Hex Hid)). rewrite Hts. reflexivity.
Defined.

(** ** What the page lets a master do *)

Section MasterPage.

Variables appId limitReachedText sendErrorText : string.

Local Abbreviation submit := (submitForm appId limitReachedText sendErrorText).

(** X16. For a master session on the chat page, the form is there and
    enabled exactly when the status it holds says the client is logged in;
    the counter of the client plays no part (a master can send while the
    client is at the limit).  While the client is logged out a submit does
    nothing; while it is logged in, a text that is not blank is written to
    the conversation of the master as one message, when the store fulfils
    the request. *)
Theorem master_may_send_iff_client_logged_in (w : World) (uid : string) :
  userRole (app w) = Some master ->
  loading (app w) = false -> userId (app w) = Some uid -> uid <> "" ->
  let a := app w in
  let chat := getChatCollectionPath appId (Some uid) (Some HARDCODED_CLIENT_ID) in
  (formRendered a && negb (sendDisabled a) = true <-> isLoggedIn (clientStatus a) = true)
  /\ (isLoggedIn (clientStatus a) = false -> submit w = (Normal tt, w))
  /\ (isLoggedIn (clientStatus a) = true ->
      db a = true -> trim (newMessage a) <> "" -> fulfilled w = true ->
      messagesAt (firestore (after submit w)) chat
      = (messagesAt (firestore w) chat
         ++ [{| text := trim (newMessage a); senderId := uid; timestamp := clock w |}])%list).
Proof.
  intros Hr Hl Hu Hne. cbv zeta.
  assert (Hgate : formRendered (app w) && negb (sendDisabled (app w))
                  = isLoggedIn (clientStatus (app w))).
  { unfold formRendered, sendDisabled, isClientLoggedIn. rewrite Hl, Hr, Hu.
    change (isRole (Some master) client) with false.
    change (isRole (Some master) master) with true.
    cbn. destruct (String.eqb_spec uid ""); [contradiction |].
    now destruct (isLoggedIn (clientStatus (app w))). }
  split; [| split].
  - now rewrite Hgate.
  - intros Hout. unfold submitForm, bind, getWorld. now rewrite Hgate, Hout.
  - intros Hin Hdb Ht Hf. unfold after, submitForm. unfold bind at 1, getWorld at 1.
    rewrite Hgate, Hin.
    rewrite (accepted_send_world appId limitReachedText sendErrorText w uid); trivial.
    + cbn [snd]. cbn. rewrite messagesAt_insert. unfold messagesAt. now rewrite fmap_app.
    + rewrite Hr. discriminate.
    + rewrite Hr. discriminate.
Qed.

End MasterPage.

Lemma master_may_send_iff_client_logged_in_sample :
  let chat := getChatCollectionPath "app" (Some "master_user_1") (Some HARDCODED_CLIENT_ID) in
  messagesAt
    (firestore (after (submitForm "app" "limit reached" "send error: ")
                      (masterWorld " hi " (sampleStatus 3 false)))) chat
  = [{| text := "hi"; senderId := "master_user_1"; timestamp := 1000%N |}]
  /\ submitForm "app" "limit reached" "send error: " (masterWorld " hi " noStatus)
     = (Normal tt, masterWorld " hi " noStatus).
Proof.
  cbv zeta. split.
  - destruct (master_may_send_iff_client_logged_in "app" "limit reached" "send error: "
                (masterWorld " hi " (sampleStatus 3 false)) "master_user_1")
      as (_ & _ & Hyes).
    + reflexivity.
    + reflexivity.
    + reflexivity.
    + vm_compute; discriminate.
    + rewrite Hyes; [reflexivity | reflexivity | reflexivity | vm_compute; discriminate
                     | reflexivity].
  - destruct (master_may_send_iff_client_logged_in "app" "limit reached" "send error: "
                (masterWorld " hi " noStatus) "master_user_1") as (_ & Hno & _).
    + reflexivity.
    + reflexivity.
    + reflexivity.
    + vm_compute; discriminate.
    + apply Hno. reflexivity.
Defined.

(** ** The list of messages *)

Section ChatList.

Variables appId limitReachedText sendErrorText : string.

#[local] Instance docLe_total : Total docLe.
Proof.
  intros [i1 m1] [i2 m2]. unfold docLe. cbn.
  destruct (N.lt_total (timestamp m1) (timestamp m2)) as [H | [H | H]]; [auto | | auto].
  destruct (Nat.le_ge_cases i1 i2); [left | right]; right; split; auto.
Qed.

#[local] Instance docLe_trans : Transitive docLe.
Proof.
  intros [i1 m1] [i2 m2] [i3 m3]. unfold docLe. cbn.
  intros [H1 | [H1 H1']] [H2 | [H2 H2']]; try (left; lia). right. split; lia.
Qed.

Lemma docLe_time (d1 d2 : nat * Message) :
  docLe d1 d2 -> (timestamp (snd d1) <= timestamp (snd d2))%N.
Proof. unfold docLe. intros [H | [H _]]; lia. Qed.

(** The query gives the front of the documents put in order. *)
Lemma runQuery_front (fs : Firestore) (coll : string) :
  exists rest,
    (runQuery fs coll ++ rest)%list ≡ₚ docsAt fs coll
    /\ StronglySorted docLe (runQuery fs coll ++ rest)%list.
Proof.
  exists (drop 50 (merge_sort docLe (docsAt fs coll))). unfold runQuery.
  rewrite take_drop. split.
  - apply merge_sort_Permutation.
  - apply StronglySorted_merge_sort; apply _.
Qed.

Lemma StronglySorted_lookup_le {A : Type} (R : relation A) `{!Reflexive R}
    (l : list A) (i j : nat) (x y : A) :
  StronglySorted R l -> i <= j -> l !! i = Some x -> l !! j = Some y -> R x y.
Proof.
  intros Hs. revert i j. induction Hs as [| a l Hs IH Hall]; intros i j Hij Hi Hj.
  - discriminate.
  - destruct i as [| i], j as [| j]; cbn in Hi, Hj.
    + injection Hi as <-. injection Hj as <-. reflexivity.
    + injection Hi as <-. rewrite Forall_forall in Hall. apply Hall.
      apply list_elem_of_lookup. eauto.
    + lia.
    + apply (IH i j); [lia | trivial | trivial].
Qed.

#[local] Instance docLe_refl : Reflexive docLe.
Proof. intros [i m]. right. split; cbn; lia. Qed.

(** A document with [n] strictly older documents before it is not among the
    first [n] of the ordered list. *)
Lemma not_in_front (l : list (nat * Message)) (n : nat) (d : nat * Message) :
  StronglySorted docLe l ->
  n <= List.length (filter (fun e => (timestamp (snd e) < timestamp (snd d))%N) l) ->
  d ∉ take n l.
Proof.
  intros Hs Hn Hin. apply elem_of_take in Hin as (i & Hi & Hlt).
  rewrite <- (take_drop_middle l i d Hi) in Hs, Hn.
  apply StronglySorted_app in Hs as (_ & _ & Hs).
  apply StronglySorted_cons in Hs as [Hall _].
  rewrite filter_app, filter_cons in Hn.
  rewrite decide_False in Hn by lia.
  assert (Hnone : filter (fun e => (timestamp (snd e) < timestamp (snd d))%N)
                         (drop (S i) l) = []).
  { clear -Hall. induction Hall as [| e l' He _ IH]; [reflexivity |].
    rewrite filter_cons, decide_False; [exact IH |].
    apply docLe_time in He. lia. }
  rewrite Hnone, app_nil_r in Hn.
  pose proof (length_filter (fun e => (timestamp (snd e) < timestamp (snd d))%N) (take i l)).
  rewrite length_take in *. lia.
Qed.

(** X17. The list a snapshot hands to the page holds at most 50 documents,
    all of them documents of the conversation of the session, in ascending
    order of their timestamps; they are the oldest ones (a document left
    out is not older than any listed one), and nothing is left out while
    the conversation holds at most 50 documents. *)
Theorem chat_list_is_the_oldest_fifty (w : World) (msgs : list (nat * Message)) :
  chatSnapshot appId w = Some msgs ->
  let docs :=
    docsAt (firestore w)
      (getChatCollectionPath appId (orElse (masterId (app w)) (userId (app w)))
         (Some HARDCODED_CLIENT_ID)) in
  List.length msgs <= 50
  /\ (forall d, d ∈ msgs -> d ∈ docs)
  /\ (forall i j d1 d2, i <= j -> msgs !! i = Some d1 -> msgs !! j = Some d2 ->
        (timestamp (snd d1) <= timestamp (snd d2))%N)
  /\ (forall d e, d ∈ docs -> d ∉ msgs -> e ∈ msgs ->
        (timestamp (snd e) <= timestamp (snd d))%N)
  /\ (List.length docs <= 50 -> msgs ≡ₚ docs).
Proof.
  unfold chatSnapshot. cbv zeta. destruct (chatSubscribed (app w)); [| discriminate].
  intros [= <-].
  set (path := getChatCollectionPath _ _ _).
  destruct (runQuery_front (firestore w) path) as (rest & Hperm & Hsorted).
  split; [| split; [| split; [| split]]].
  - unfold runQuery. rewrite length_take. lia.
  - intros d Hd. rewrite <- Hperm. apply elem_of_app. now left.
  - intros i j d1 d2 Hij H1 H2. apply docLe_time.
    apply StronglySorted_app_1_l in Hsorted.
    exact (StronglySorted_lookup_le docLe _ i j d1 d2 Hsorted Hij H1 H2).
  - intros d e Hd Hout He. apply docLe_time.
    rewrite <- Hperm in Hd. apply elem_of_app in Hd as [Hd | Hd]; [contradiction |].
    exact (StronglySorted_app_1_elem_of docLe _ _ e d Hsorted He Hd).
  - intros Hlen. unfold runQuery. rewrite take_ge.
    + apply merge_sort_Permutation.
    + now rewrite (merge_sort_Permutation docLe (docsAt (firestore w) path)).
Qed.

(** X18. The query keeps the 50 oldest documents, so a long conversation
    stops showing what is sent.  When the conversation of a session already
    holds 50 messages older than the present time, an ordinary message the
    session sends is stored (the store fulfils the request) but is not in
    the list the next snapshot hands to the page. *)
Theorem message_after_fifty_is_not_listed (w : World) (uid : string) :
  db (app w) = true -> userId (app w) = Some uid -> uid <> "" ->
  userRole (app w) <> None ->
  trim (newMessage (app w)) <> "" ->
  (userRole (app w) = Some client ->
     (msgCount (clientStatus (app w)) < MAX_MESSAGES_BEFORE_LOCK)%Z
     /\ toUpperCase (trim (newMessage (app w))) <> SPECIAL_CODE) ->
  fulfilled w = true ->
  let chat := getChatCollectionPath appId (Some uid) (Some HARDCODED_CLIENT_ID) in
  50 <= List.length (filter (fun e => (timestamp (snd e) < clock w)%N)
                            (docsAt (firestore w) chat)) ->
  let w' := after (handleSendMessage appId limitReachedText sendErrorText) w in
  let new := (nextDocId (firestore w),
              {| text := trim (newMessage (app w)); senderId := uid;
                 timestamp := clock w |}) in
  new ∈ docsAt (firestore w') chat
  /\ (forall msgs, chatSnapshot appId w' = Some msgs -> new ∉ msgs).
Proof.
  intros Hdb Hu Hne Hr Ht Hclient Hf. cbv zeta. intros Hlong.
  assert (Hsent : after (handleSendMessage appId limitReachedText sendErrorText) w
                  = snd (handleSendMessage appId limitReachedText sendErrorText w))
    by reflexivity.
  rewrite (accepted_send_world appId limitReachedText sendErrorText w uid) in Hsent; trivial.
  cbn [snd] in Hsent. rewrite Hsent. clear Hsent.
  set (chat := getChatCollectionPath appId (Some uid) (Some HARDCODED_CLIENT_ID)) in *.
  set (new := (nextDocId (firestore w), _)).
  assert (Hdocs : forall docsMap n,
            docsAt {| collections := <[chat := (docsAt (firestore w) chat ++ [new])%list]>
                                       (collections (firestore w));
                      documents := docsMap; nextDocId := n |} chat
            = (docsAt (firestore w) chat ++ [new])%list).
  { intros. unfold docsAt at 1. cbn. now rewrite lookup_insert_eq. }
  split.
  - cbn [firestore withApp withStore]. rewrite Hdocs. apply elem_of_app. right.
    apply list_elem_of_singleton. reflexivity.
  - intros msgs. unfold chatSnapshot. cbv zeta.
    destruct (chatSubscribed _); [| discriminate]. intros [= <-].
    cbn [app withApp masterId userRole userId withNewMessage firestore withStore].
    assert (Hpath : orElse (match userRole (app w) with
                            | Some master => userId (app w)
                            | Some client => userId (app w)
                            | None => None
                            end) (userId (app w)) = Some uid).
    { rewrite Hu. unfold orElse. destruct (userRole (app w)) as [[] |]; cbn;
        destruct (String.eqb_spec uid ""); congruence. }
    unfold masterId. cbn [userRole userId withNewMessage].
    rewrite Hpath. fold chat. unfold runQuery. rewrite Hdocs.
    apply not_in_front.
    + apply StronglySorted_merge_sort; apply _.
    + rewrite (merge_sort_Permutation docLe (docsAt (firestore w) chat ++ [new])).
      rewrite filter_app, length_app. subst new. cbn [snd timestamp]. lia.
Qed.

End ChatList.

Lemma chat_list_is_the_oldest_fifty_sample :
  let w := sampleWorld (sampleApp (Some master) (Some "master_user_1") "" (sampleStatus 0 false))
                       (longStore 60) in
  let docs := docsAt (firestore w)
                     (getChatCollectionPath "app" (Some "master_user_1")
                        (Some HARDCODED_CLIENT_ID)) in
  let msgs := default [] (chatSnapshot "app" w) in
  List.length msgs <= 50 /\ (forall d, d ∈ msgs -> d ∈ docs).
Proof.
  cbv zeta.
  destruct (chat_list_is_the_oldest_fifty "app"
              (sampleWorld (sampleApp (Some master) (Some "master_user_1") ""
                              (sampleStatus 0 false)) (longStore 60))
              (default [] (chatSnapshot "app"
                 (sampleWorld (sampleApp (Some master) (Some "master_user_1") ""
                                 (sampleStatus 0 false)) (longStore 60)))))
    as (Hlen & Hin & _).
  - vm_compute. reflexivity.
  - exact (conj Hlen Hin).
Defined.

Lemma message_after_fifty_is_not_listed_sample :
  let w := sampleWorld (sampleApp (Some master) (Some "master_user_1") "new" (sampleStatus 0 false))
                       (longStore 50) in
  let w' := after (handleSendMessage "app" "limit reached" "send error: ") w in
  let new := (50, {| text := "new"; senderId := "master_user_1"; timestamp := 1000%N |}) in
  new ∈ docsAt (firestore w')
               (getChatCollectionPath "app" (Some "master_user_1") (Some HARDCODED_CLIENT_ID))
  /\ new ∉ default [] (chatSnapshot "app" w').
Proof.
  cbv zeta.
  destruct (message_after_fifty_is_not_listed "app" "limit reached" "send error: "
              (sampleWorld (sampleApp (Some master) (Some "master_user_1") "new"
                              (sampleStatus 0 false)) (longStore 50))
              "master_user_1") as [Hin Hout].
  - reflexivity.
  - reflexivity.
  - vm_compute; discriminate.
  - vm_compute; discriminate.
  - vm_compute; discriminate.
  - vm_compute; discriminate.
  - reflexivity.
  - vm_compute. apply le_n.
  - split; [exact Hin |]. apply Hout. vm_compute. reflexivity.
Defined.

(** ** The open chat room *)

Module OpenChatFacts.

Import OpenChat.

Lemma substring_front_length (n : nat) (s : string) :
  String.length (String.substring 0 n s) <= n.
Proof.
  revert s. induction n as [| n IH]; intros [| c s]; cbn; try lia.
  specialize (IH s). lia.
Qed.

(** X19. [sendMessage] of the open room leaves everything as it was exactly
    when the text is blank after trimming or nobody is signed in; in every
    other case something changes (a document is added, or an error is
    logged). *)
Theorem sendMessage_idle_iff (r : Room) :
  sendMessage r = r <-> trim (input r) = "" \/ user r = None.
Proof.
  unfold sendMessage. split.
  - destruct (String.eqb_spec (trim (input r)) "") as [E | N]; [auto |].
    destruct (user r) as [u |]; [| auto].
    intros H. exfalso.
    destruct (faults r) as [| [e |] rest]; apply (f_equal nextDocId) in H as Hn;
      apply (f_equal console) in H as Hc; cbn in Hn, Hc; try lia.
    apply (f_equal (@List.length _)) in Hc. cbn in Hc. lia.
  - intros [E | E].
    + now rewrite E.
    + rewrite E. now destruct (String.eqb _ _).
Qed.

(** X20. A signed-in visitor sends a text that is not blank.  If the store
    fulfils the request, the collection has exactly one more document: it
    carries the text as it was typed (white space around it included, so
    unlike the master/client chat the text is not trimmed), the time of the
    server, the identifier of the visitor and the name "Guest-" followed by
    the first four characters of that identifier; the input is cleared.  If
    the store rejects it, the collection and the input stay as they were
    and the console gets 'Error sending message:'. *)
Theorem sendMessage_outcome (r : Room) (u : string) :
  user r = Some u -> trim (input r) <> "" ->
  let r' := sendMessage r in
  match faults r with
  | Some e :: rest =>
      chats r' = chats r /\ input r' = input r
      /\ console r' = Failed "Error sending message:" (StoreError e) :: console r
  | _ =>
      chats r'
      = (chats r
         ++ [(nextDocId r,
              {| text := input r; timestamp := serverClock r; uid := u;
                 displayName := "Guest-" +:+ String.substring 0 4 u |})])%list
      /\ input r' = ""
      /\ console r' = console r
  end
  /\ (forall d, d ∈ chats r' -> d ∈ chats r \/
        (text (snd d) = input r /\ String.length (displayName (snd d)) <= 10)).
Proof.
  intros Hu Ht. cbv zeta. unfold sendMessage. rewrite Hu.
  destruct (String.eqb_spec (trim (input r)) "") as [E | _]; [contradiction |].
  destruct (faults r) as [| [e |] rest]; cbn; (split; [repeat split |]).
  all: intros d Hd; try (now left).
  all: apply elem_of_app in Hd as [Hd | Hd]; [now left | right].
  all: apply list_elem_of_singleton in Hd; subst d; cbn; split; [reflexivity |].
  all: rewrite string_length_app; pose proof (substring_front_length 4 u);
    change (String.length "Guest-") with 6; lia.
Qed.

End OpenChatFacts.

Lemma open_room_send_sample :
  OpenChat.chats (OpenChat.sendMessage (OpenChat.sampleRoom "  hi " []))
  = [(0, {| OpenChat.text := "  hi "; OpenChat.timestamp := 5000%N;
            OpenChat.uid := "u1234567"; OpenChat.displayName := "Guest-u123" |})].
Proof.
  destruct (OpenChatFacts.sendMessage_outcome (OpenChat.sampleRoom "  hi " []) "u1234567")
    as [(Hchats & _) _].
  - reflexivity.
  - vm_compute; discriminate.
  - exact Hchats.
Defined.

(** ** Typing and sending *)

Section Typing.

Variables appId limitReachedText sendErrorText : string.

Local Abbreviation send := (handleSendMessage appId limitReachedText sendErrorText).
Local Abbreviation submit := (submitForm appId limitReachedText sendErrorText).

Lemma trimEnd_idem (s : string) : trimEnd (trimEnd s) = trimEnd s.
Proof.
  induction s as [| c r IH]; [reflexivity |]. cbn [trimEnd].
  destruct (trimEnd r) as [| a r'] eqn:E.
  - destruct (isWhiteSpace c) eqn:Hc; [reflexivity |]. cbn [trimEnd]. now rewrite Hc.
  - change (trimEnd (String c (String a r')))
      with (match trimEnd (String a r') with
            | EmptyString => if isWhiteSpace c then EmptyString else String c EmptyString
            | String _ _ as r'' => String c r''
            end).
    now rewrite IH.
Qed.

Lemma trimStart_head (s : string) (c : ascii) (r : string) :
  trimStart s = String c r -> isWhiteSpace c = false.
Proof.
  induction s as [| a s IH]; cbn [trimStart]; [discriminate |].
  destruct (isWhiteSpace a) eqn:Ha; [exact IH |]. intros [= <- _]. exact Ha.
Qed.

Lemma trimEnd_keeps_head (c : ascii) (r : string) :
  isWhiteSpace c = false -> exists r', trimEnd (String c r) = String c r'.
Proof.
  intros Hc. cbn [trimEnd]. destruct (trimEnd r); [rewrite Hc |]; eauto.
Qed.

(** [trim] gives a text that [trim] leaves alone. *)
Lemma trim_idem (s : string) : trim (trim s) = trim s.
Proof.
  unfold trim. destruct (trimStart s) as [| c r] eqn:E; [reflexivity |].
  apply trimStart_head in E.
  destruct (trimEnd_keeps_head c r E) as [r' Hr]. rewrite Hr.
  cbn [trimStart]. rewrite E. rewrite <- Hr. apply trimEnd_idem.
Qed.

(** The user types into the input of a page whose form is there and
    enabled. *)
Lemma typeMessage_enabled (s : string) (w : World) :
  formRendered (app w) && negb (sendDisabled (app w)) = true ->
  typeMessage s w = (Normal tt, withApp w (withNewMessage s (app w))).
Proof. intros H. unfold typeMessage, bind, getWorld. now rewrite H. Qed.

(** X21. Typing and sending, end to end.  On a page whose form is there and
    enabled, the user types [s] (not blank, and for a client not the
    special code) and submits, and the store fulfils the request: the
    conversation of the session gets exactly one more message, whose text
    is [s] without the white space around it (trimming it again changes
    nothing, and it is not empty), and the input is empty again.  On a page
    whose form is missing or disabled, typing and submitting change
    nothing. *)
Theorem type_then_submit (w : World) (uid s : string) :
  db (app w) = true -> userId (app w) = Some uid -> uid <> "" ->
  let chat := getChatCollectionPath appId (Some uid) (Some HARDCODED_CLIENT_ID) in
  let w' := after submit (after (typeMessage s) w) in
  (formRendered (app w) && negb (sendDisabled (app w)) = false -> w' = w)
  /\ (formRendered (app w) && negb (sendDisabled (app w)) = true ->
      trim s <> "" ->
      (userRole (app w) = Some client -> toUpperCase (trim s) <> SPECIAL_CODE) ->
      fulfilled w = true ->
      exists m : Message,
        messagesAt (firestore w') chat = (messagesAt (firestore w) chat ++ [m])%list
        /\ m = {| text := trim s; senderId := uid; timestamp := clock w |}
        /\ trim (text m) = text m /\ text m <> ""
        /\ newMessage (app w') = "").
Proof.
  intros Hdb Hu Hne. cbv zeta. split.
  - intros Hoff. unfold after, typeMessage, submitForm, bind, getWorld. rewrite Hoff.
    cbn. now rewrite Hoff.
  - intros Hon Ht Hcode Hf.
    assert (Htyped : after (typeMessage s) w = snd (typeMessage s w)) by reflexivity.
    rewrite typeMessage_enabled in Htyped by exact Hon. cbn [snd] in Htyped.
    rewrite Htyped. clear Htyped. set (w1 := withApp _ _).
    assert (Hon1 : formRendered (app w1) && negb (sendDisabled (app w1)) = true)
      by exact Hon.
    assert (Hrole : userRole (app w) <> None).
    { intros E. unfold formRendered in Hon. rewrite E in Hon. cbn in Hon.
      now rewrite !andb_false_r in Hon. }
    assert (Hlimit : userRole (app w) = Some client ->
              (msgCount (clientStatus (app w)) < MAX_MESSAGES_BEFORE_LOCK)%Z).
    { intros E. unfold sendDisabled in Hon. rewrite E in Hon.
      change (isRole (Some client) client) with true in Hon. cbn [andb] in Hon.
      apply andb_true_iff in Hon as [_ Hon]. rewrite negb_involutive in Hon.
      now apply canClientSend_spec in Hon as [_ Hon]. }
    assert (Hsub : after submit w1 = snd (send w1)).
    { unfold after, submitForm. unfold bind at 1, getWorld at 1. now rewrite Hon1. }
    rewrite Hsub. clear Hsub.
    rewrite (accepted_send_world appId limitReachedText sendErrorText w1 uid); trivial.
    2:{ intros E. split; [now apply Hlimit | now apply Hcode]. }
    eexists. cbn [snd]. split; [| split; [reflexivity | split; [| split]]].
    + cbn. rewrite messagesAt_insert. unfold messagesAt. now rewrite fmap_app.
    + cbn. apply trim_idem.
    + exact Ht.
    + reflexivity.
Qed.

End Typing.

Lemma type_then_submit_sample :
  let w := clientWorld "" (sampleStatus 1 false) in
  let chat := getChatCollectionPath "app" (Some HARDCODED_CLIENT_ID) (Some HARDCODED_CLIENT_ID) in
  let w' := after (submitForm "app" "limit reached" "send error: ")
                  (after (typeMessage "  see you  ") w) in
  exists m : Message,
    messagesAt (firestore w') chat = (messagesAt (firestore w) chat ++ [m])%list
    /\ text m = "see you".
Proof.
  cbv zeta.
  destruct (type_then_submit "app" "limit reached" "send error: "
              (clientWorld "" (sampleStatus 1 false)) HARDCODED_CLIENT_ID "  see you  ")
    as [_ Hon].
  - reflexivity.
  - reflexivity.
  - vm_compute; discriminate.
  - destruct Hon as (m & Hm & -> & _).
    + reflexivity.
    + vm_compute; discriminate.
    + intros _. vm_compute; discriminate.
    + reflexivity.
    + exists {| text := trim "  see you  "; senderId := HARDCODED_CLIENT_ID;
                timestamp := clock (clientWorld "" (sampleStatus 1 false)) |}.
      split; [exact Hm | reflexivity].
Defined.

(** ** What holds along every sequence of events *)

Section Sequences.

Variables appId limitReachedText sendErrorText forceSentText forceErrorText : string.

Local Abbreviation go :=
  (run appId limitReachedText sendErrorText forceSentText forceErrorText).
Local Abbreviation handle :=
  (dispatch appId limitReachedText sendErrorText forceSentText forceErrorText).

(** *** Keeping the documents *)

Lemma keepsDocuments_refl (fs : Firestore) : keepsDocuments fs fs.
Proof. split; [intros path; reflexivity | auto]. Qed.

Lemma keepsDocuments_trans (fs1 fs2 fs3 : Firestore) :
  keepsDocuments fs1 fs2 -> keepsDocuments fs2 fs3 -> keepsDocuments fs1 fs3.
Proof.
  intros [Hc1 Hd1] [Hc2 Hd2]. split.
  - intros path. etransitivity; [apply Hc1 | apply Hc2].
  - auto.
Qed.

Lemma applyWrite_keeps (fs fs' : Firestore) (wr : WriteOp) :
  isDelete wr = false -> applyWrite fs wr = Some fs' -> keepsDocuments fs fs'.
Proof.
  destruct wr as [coll data | path data merge | path b | coll id | path];
    cbn [isDelete applyWrite]; intros Hd H; try discriminate.
  - injection H as <-. split; [| auto]. intros path. unfold docsAt at 2. cbn.
    destruct (decide (coll = path)) as [-> | Hne].
    + rewrite lookup_insert_eq. cbn. now apply prefix_app_r.
    + rewrite lookup_insert_ne by exact Hne. reflexivity.
  - injection H as <-. split; [intros p; reflexivity |]. intros p Hp. cbn.
    destruct (decide (path = p)) as [-> | Hne].
    + rewrite lookup_insert_eq. eauto.
    + now rewrite lookup_insert_ne.
  - destruct (documents fs !! path) as [old |] eqn:E; [| discriminate].
    injection H as <-. split; [intros p; reflexivity |]. intros p Hp. cbn.
    destruct (decide (path = p)) as [-> | Hne].
    + rewrite lookup_insert_eq. eauto.
    + now rewrite lookup_insert_ne.
Qed.

Lemma applyBatch_keeps (batch : list WriteOp) (fs fs' : Firestore) :
  forallb (fun wr => negb (isDelete wr)) batch = true ->
  applyBatch fs batch = Some fs' -> keepsDocuments fs fs'.
Proof.
  revert fs. induction batch as [| wr rest IH]; intros fs Hall H; cbn in *.
  - injection H as <-. apply keepsDocuments_refl.
  - apply andb_true_iff in Hall as [Hwr Hrest]. apply negb_true_iff in Hwr.
    destruct (applyWrite fs wr) as [fs1 |] eqn:E; [| discriminate].
    eapply keepsDocuments_trans; [eapply applyWrite_keeps; eauto | eauto].
Qed.

Lemma keeping_ret {A : Type} (a : A) : keeping (ret a).
Proof. intros w. apply keepsDocuments_refl. Qed.

Lemma keeping_bind {A B : Type} (m : Js A) (k : A -> Js B) :
  keeping m -> (forall a, keeping (k a)) -> keeping (bind m k).
Proof.
  intros Hm Hk w. specialize (Hm w). unfold after, bind in *.
  destruct (m w) as [[a | e] w1]; cbn in *; [| exact Hm].
  eapply keepsDocuments_trans; [exact Hm | apply Hk].
Qed.

Lemma keeping_tryCatch {A : Type} (body : Js A) (handler : Error -> Js A) :
  keeping body -> (forall e, keeping (handler e)) -> keeping (tryCatch body handler).
Proof.
  intros Hm Hk w. specialize (Hm w). unfold after, tryCatch in *.
  destruct (body w) as [[a | e] w1]; cbn in *; [exact Hm |].
  eapply keepsDocuments_trans; [exact Hm | apply Hk].
Qed.

Lemma keeping_modify (f : World -> World) :
  (forall w, firestore (f w) = firestore w) -> keeping (modify f).
Proof. intros H w. unfold after, modify. cbn. rewrite H. apply keepsDocuments_refl. Qed.

Lemma keeping_request (batch : list WriteOp) :
  forallb (fun wr => negb (isDelete wr)) batch = true -> keeping (request batch).
Proof.
  intros Hall w. unfold after, request.
  destruct (faults w) as [| [e |] rest]; cbn; try apply keepsDocuments_refl;
    destruct (applyBatch (firestore w) batch) as [fs' |] eqn:E; cbn;
    try apply keepsDocuments_refl; eapply applyBatch_keeps; eauto.
Qed.

Lemma keeping_frame {A : Type} (m : Js A) :
  (forall w, firestore (after m w) = firestore w) -> keeping m.
Proof. intros H w. rewrite H. apply keepsDocuments_refl. Qed.

Lemma keeping_setApp (f : App -> App) : keeping (setApp f).
Proof. now apply keeping_frame. Qed.

Lemma keeping_consoleLog (line : string) : keeping (consoleLog line).
Proof. now apply keeping_frame. Qed.

Lemma keeping_consoleError (line : string) (e : Error) : keeping (consoleError line e).
Proof. now apply keeping_frame. Qed.

Lemma keeping_identifier {A : Type} (name : string) (m : Js A) :
  keeping m -> keeping (identifier name m).
Proof.
  intros H. unfold identifier. destruct (existsb _ _); [exact H |].
  now apply keeping_frame.
Qed.

Lemma keeping_deleteClientChatData (mId cId : option string) (database : bool) :
  keeping (deleteClientChatData appId mId cId database).
Proof.
  apply keeping_frame. intros w. unfold after. rewrite deleteClientChatData_eq.
  now destruct (negb database || falsy mId || falsy cId).
Qed.

Lemma keeping_handleLogout (cl : Closure) : keeping (handleLogout appId cl).
Proof. apply keeping_frame. intros w. apply handleLogout_frame. Qed.

(** Lines 188-216, branch by branch. *)
Lemma login_cases (w : World) :
  handleLogin appId w =
    let a := app w in
    if negb (db a) || falsy (userId a) then (Normal tt, w)
    else if isRole (userRole a) client then
      (deleteClientChatData appId (masterId a) (userId a) (db a) ;;
       consoleLog "Client chat data reset/deleted on successful login." ;;
       tryCatch
         (request [SetStatus (getStatusDocPath appId (userId a))
                     {| isLoggedIn := true; msgCount := 0; lastLogin := Some (clock w);
                        forceLogout := false |} false] ;;
          consoleLog "Login status updated.")
         (fun e => consoleError "Error during login status update:" e)) w
    else
      tryCatch
        (request [] ;; consoleLog "Login status updated.")
        (fun e => consoleError "Error during login status update:" e) w.
Proof.
  cbv zeta. unfold handleLogin. unfold bind at 1, getWorld at 1. cbv beta iota zeta.
  destruct (negb _ || _); [reflexivity |].
  unfold writeBatch, identifier. cbn [existsb firestoreImports String.eqb Ascii.eqb Bool.eqb orb].
  unfold bind at 1, ret at 1. cbv beta iota zeta.
  destruct (isRole (userRole (app w)) client).
  - unfold bind, now, ret. cbv beta iota zeta.
    destruct (deleteClientChatData _ _ _ _ w) as [[[] | e] w1]; reflexivity.
  - reflexivity.
Qed.

Lemma keeping_handleLogin : keeping (handleLogin appId).
Proof.
  intros w. unfold after. rewrite login_cases. cbv zeta.
  destruct (negb _ || _); [apply keepsDocuments_refl |].
  destruct (isRole _ _).
  - apply keeping_bind; [apply keeping_deleteClientChatData | intros _].
    apply keeping_bind; [apply keeping_consoleLog | intros _].
    apply keeping_tryCatch; [| intros e; apply keeping_consoleError].
    apply keeping_bind; [now apply keeping_request | intros _; apply keeping_consoleLog].
  - apply keeping_tryCatch; [| intros e; apply keeping_consoleError].
    apply keeping_bind; [now apply keeping_request | intros _; apply keeping_consoleLog].
Qed.

Lemma keeping_handleSendMessage :
  keeping (handleSendMessage appId limitReachedText sendErrorText).
Proof.
  intros w. unfold after. rewrite send_cases. cbv zeta.
  destruct (negb _ || _ || _ || _); [apply keepsDocuments_refl |].
  destruct (isRole _ _ && (_ <=? _)%Z); [apply keepsDocuments_refl |].
  destruct (isRole _ _ && String.eqb _ _).
  - apply keeping_bind; [now apply keeping_request | intros _].
    apply keeping_bind; [apply keeping_setApp | intros _]. now apply keeping_request.
  - apply keeping_tryCatch; [| intros e; apply keeping_setApp].
    apply keeping_bind; [| intros _; apply keeping_setApp].
    apply keeping_request. now destruct (isRole _ _).
Qed.

Lemma keeping_handleMasterForceLogout :
  keeping (handleMasterForceLogout appId forceSentText forceErrorText).
Proof.
  intros w. unfold after. rewrite force_cases.
  destruct (negb _ || negb _); [apply keepsDocuments_refl |].
  destruct (documents (firestore w) !! getStatusDocPath appId (Some HARDCODED_CLIENT_ID))
    as [old |] eqn:E;
    destruct (faults w) as [| [e |] rest]; cbn;
    first
      [ apply keepsDocuments_refl
      | eapply (applyWrite_keeps _ _
                  (UpdateForce (getStatusDocPath appId (Some HARDCODED_CLIENT_ID)) true));
        [reflexivity | cbn [applyWrite]; rewrite E; reflexivity] ].
Qed.

Lemma handleLogout_status (cl : Closure) (w : World) :
  clientStatus (app (after (handleLogout appId cl) w)) = clientStatus (app w).
Proof.
  unfold after, handleLogout, bind.
  destruct (c_auth cl); cbn; [| reflexivity].
  destruct (c_db cl && isString (c_userId cl) HARDCODED_CLIENT_ID); cbn; [| reflexivity].
  rewrite deleteClientChatData_eq. now destruct (negb _ || _ || _).
Qed.

(** One timer fires (lines 320-323). *)
Lemma fire_one (t : Timer) (w : World) :
  let m := (modify (fun w => withClock
                        (withTimers w (filter (fun u => timerId u <> timerId t) (timers w))
                                    (nextTimerId w))
                        (N.max (clock w) (due t))) ;;
            detached (touchTimerExpired appId (env t))) in
  completion m w = Normal tt
  /\ firestore (after m w) = firestore w
  /\ clientStatus (app (after m w)) = clientStatus (app w).
Proof.
  cbv zeta. unfold completion, after, bind, modify.
  rewrite detached_normal by (unfold completion; now rewrite touchTimerExpired_eq).
  cbn [fst snd]. unfold after at 1 2. rewrite touchTimerExpired_eq. cbn [snd].
  split; [reflexivity |]. split.
  - match goal with
    | |- firestore (after (handleLogout appId ?cl) ?w0) = _ =>
        destruct (handleLogout_frame appId cl w0) as [H _]; exact H
    end.
  - rewrite handleLogout_status. reflexivity.
Qed.

Lemma fireDue_frame (target : N) (ts : list Timer) (w : World) :
  firestore (after (fireDue appId target ts) w) = firestore w
  /\ clientStatus (app (after (fireDue appId target ts) w)) = clientStatus (app w).
Proof.
  revert w. induction ts as [| t rest IH]; intros w; [split; reflexivity |].
  assert (Hstep : exists w1,
            after (fireDue appId target (t :: rest)) w = after (fireDue appId target rest) w1
            /\ firestore w1 = firestore w
            /\ clientStatus (app w1) = clientStatus (app w)).
  { cbn [fireDue]. unfold after. unfold bind at 1.
    destruct (N.leb (due t) target).
    - destruct (fire_one t w) as (Hn & Hs & Hc). unfold completion, after in Hn, Hs, Hc.
      match goal with
      | |- context [match ?m w with _ => _ end] => destruct (m w) as [[[] | e] w1]
      end; cbn in Hn, Hs, Hc; [| discriminate].
      exists w1. auto.
    - exists w. unfold ret. auto. }
  destruct Hstep as (w1 & -> & Hs & Hc). destruct (IH w1). split; congruence.
Qed.

Lemma keeping_elapse (ms : N) : keeping (elapse appId ms).
Proof.
  apply keeping_frame. intros w. unfold after, elapse, bind, getWorld, modify.
  destruct (fireDue_frame (clock w + ms) (timers w) w) as [Hs _]. unfold after in Hs.
  destruct (fireDue appId (clock w + ms) (timers w) w) as [[[] | e] w1]; cbn in *; exact Hs.
Qed.

Lemma keeping_dispatch (e : Event) : keeping (handle e).
Proof.
  destruct e as [user | | | | | s | | | | ms]; cbn [dispatch].
  - apply keeping_frame. intros w. now destruct user.
  - apply keeping_frame. apply observeStatus_keeps_store.
  - apply keeping_handleLogin.
  - apply keeping_bind; [now apply keeping_frame | intros w0; apply keeping_handleLogout].
  - apply keeping_handleMasterForceLogout.
  - apply keeping_setApp.
  - apply keeping_handleSendMessage.
  - apply keeping_frame. intros w. unfold after, handleTouchStart, bind, getWorld.
    now destruct (negb _).
  - apply keeping_frame. intros w. unfold after, handleTouchEnd, bind, getWorld.
    destruct (negb _); [reflexivity |]. now destruct (touchTimerRef (app w)).
  - apply keeping_elapse.
Qed.

(** X22. Nothing is ever deleted.  Along every sequence of events of a
    session (sign-in changes, snapshots, logins, logouts by button, timer or
    master, typing, sends, presses, time passing) and whatever the store
    answers, every collection still starts with the message documents it
    had, in their order, and every status document that existed still
    exists.  The one deletion the source attempts (lines 226-236) stops at
    the unbound [getDocs] each time. *)
Theorem documents_are_never_deleted (es : list Event) (w : World) :
  keepsDocuments (firestore w) (firestore (go es w)).
Proof.
  revert w. induction es as [| e rest IH]; intros w; cbn [run].
  - apply keepsDocuments_refl.
  - eapply keepsDocuments_trans; [apply keeping_dispatch | apply IH].
Qed.

(** *** Keeping the counters within the bounds *)

Lemma applyWrite_bounds (fs fs' : Firestore) (wr : WriteOp) :
  boundedWrite wr ->
  (forall path st, documents fs !! path = Some st -> inBounds st) ->
  applyWrite fs wr = Some fs' ->
  forall path st, documents fs' !! path = Some st -> inBounds st.
Proof.
  intros Hwr Hfs H p st.
  destruct wr as [coll data | path data merge | path b | coll id | path];
    cbn [applyWrite boundedWrite] in *.
  - injection H as <-. apply Hfs.
  - injection H as <-. cbn. destruct (decide (path = p)) as [-> | Hne].
    + rewrite lookup_insert_eq. intros [= <-]. destruct merge; [| exact Hwr].
      unfold inBounds. now rewrite msgCount_mergeStatus.
    + rewrite lookup_insert_ne by exact Hne. apply Hfs.
  - destruct (documents fs !! path) as [old |] eqn:E; [| discriminate].
    injection H as <-. cbn. destruct (decide (path = p)) as [-> | Hne].
    + rewrite lookup_insert_eq. intros [= <-]. exact (Hfs _ _ E).
    + rewrite lookup_insert_ne by exact Hne. apply Hfs.
  - injection H as <-. apply Hfs.
  - injection H as <-. cbn. intros Hp. apply lookup_delete_Some in Hp as [_ Hp].
    exact (Hfs _ _ Hp).
Qed.

Lemma applyBatch_bounds (batch : list WriteOp) (fs fs' : Firestore) :
  Forall boundedWrite batch ->
  (forall path st, documents fs !! path = Some st -> inBounds st) ->
  applyBatch fs batch = Some fs' ->
  forall path st, documents fs' !! path = Some st -> inBounds st.
Proof.
  intros Hall. revert fs. induction Hall as [| wr rest Hwr _ IH]; intros fs Hfs H; cbn in H.
  - now injection H as <-.
  - destruct (applyWrite fs wr) as [fs1 |] eqn:E; [| discriminate].
    apply (IH fs1); [| exact H]. eapply applyWrite_bounds; eauto.
Qed.

Lemma bounding_frame {A : Type} (m : Js A) :
  (forall w, firestore (after m w) = firestore w
             /\ clientStatus (app (after m w)) = clientStatus (app w)) ->
  bounding m.
Proof.
  intros H w [Hheld Hdocs]. destruct (H w) as [Hs Hc]. split.
  - now rewrite Hc.
  - now rewrite Hs.
Qed.

Lemma bounding_ret {A : Type} (a : A) : bounding (ret a).
Proof. now apply bounding_frame. Qed.

Lemma bounding_bind {A B : Type} (m : Js A) (k : A -> Js B) :
  bounding m -> (forall a, bounding (k a)) -> bounding (bind m k).
Proof.
  intros Hm Hk w Hw. specialize (Hm w Hw). unfold after, bind in *.
  destruct (m w) as [[a | e] w1]; cbn in *; [| exact Hm]. now apply Hk.
Qed.

Lemma bounding_tryCatch {A : Type} (body : Js A) (handler : Error -> Js A) :
  bounding body -> (forall e, bounding (handler e)) -> bounding (tryCatch body handler).
Proof.
  intros Hm Hk w Hw. specialize (Hm w Hw). unfold after, tryCatch in *.
  destruct (body w) as [[a | e] w1]; cbn in *; [exact Hm |]. now apply Hk.
Qed.

(** What follows [getWorld] may use that the world it read is within the
    bounds. *)
Lemma bounding_getWorld {B : Type} (k : World -> Js B) :
  (forall w0, countersInBounds w0 -> countersInBounds (after (k w0) w0)) ->
  bounding (bind getWorld k).
Proof. intros H w Hw. exact (H w Hw). Qed.

Lemma bounding_setApp (f : App -> App) :
  (forall a, clientStatus (f a) = clientStatus a) -> bounding (setApp f).
Proof. intros H. apply bounding_frame. intros w. split; [reflexivity | apply H]. Qed.

Lemma bounding_setClientStatus (st : ClientStatus) :
  inBounds st -> bounding (setClientStatus st).
Proof. intros Hst w [_ Hdocs]. split; [exact Hst | exact Hdocs]. Qed.

Lemma bounding_consoleLog (line : string) : bounding (consoleLog line).
Proof. now apply bounding_frame. Qed.

Lemma bounding_consoleError (line : string) (e : Error) : bounding (consoleError line e).
Proof. now apply bounding_frame. Qed.

Lemma bounding_request (batch : list WriteOp) :
  Forall boundedWrite batch -> bounding (request batch).
Proof.
  intros Hall w [Hheld Hdocs]. unfold after, request.
  destruct (faults w) as [| [e |] rest]; cbn; try (split; assumption);
    destruct (applyBatch (firestore w) batch) as [fs' |] eqn:E; cbn;
    (split; [exact Hheld |]); try exact Hdocs; eapply applyBatch_bounds; eauto.
Qed.

Lemma bounding_identifier {A : Type} (name : string) (m : Js A) :
  bounding m -> bounding (identifier name m).
Proof.
  intros H. unfold identifier. destruct (existsb _ _); [exact H |].
  now apply bounding_frame.
Qed.

Lemma bounding_deleteClientChatData (mId cId : option string) (database : bool) :
  bounding (deleteClientChatData appId mId cId database).
Proof.
  apply bounding_frame. intros w. unfold after. rewrite deleteClientChatData_eq.
  now destruct (negb database || falsy mId || falsy cId).
Qed.

Lemma bounding_handleLogout (cl : Closure) : bounding (handleLogout appId cl).
Proof.
  apply bounding_frame. intros w. split; [apply handleLogout_frame | apply handleLogout_status].
Qed.

Lemma bounding_handleLogin : bounding (handleLogin appId).
Proof.
  intros w Hw. unfold after. rewrite login_cases. cbv zeta.
  destruct (negb _ || _); [exact Hw |].
  assert (Hcommit : forall batch, Forall boundedWrite batch ->
            bounding (tryCatch (request batch ;; consoleLog "Login status updated.")
                        (fun e => consoleError "Error during login status update:" e))).
  { intros batch Hb. apply bounding_tryCatch; [| intros e; apply bounding_consoleError].
    apply bounding_bind; [now apply bounding_request | intros _; apply bounding_consoleLog]. }
  destruct (isRole _ _).
  - eapply bounding_bind; [apply bounding_deleteClientChatData | intros _ | exact Hw].
    apply bounding_bind; [apply bounding_consoleLog | intros _].
    apply Hcommit. constructor; [| constructor]. cbn. unfold inBounds. cbn.
    unfold MAX_MESSAGES_BEFORE_LOCK. lia.
  - refine (Hcommit [] _ w Hw). constructor.
Qed.

Lemma bounding_handleSendMessage :
  bounding (handleSendMessage appId limitReachedText sendErrorText).
Proof.
  intros w Hw. unfold after. rewrite send_cases. cbv zeta.
  destruct (negb _ || _ || _ || _); [exact Hw |].
  destruct (isRole (userRole (app w)) client) eqn:Hrole; cbn [andb].
  - destruct (Z.leb_spec MAX_MESSAGES_BEFORE_LOCK (msgCount (clientStatus (app w))))
      as [_ | Hlt].
    { refine (bounding_setApp _ _ w Hw). reflexivity. }
    destruct (String.eqb _ _).
    + eapply bounding_bind; [| intros _ | exact Hw].
      * apply bounding_request. constructor; [| constructor]. cbn. unfold inBounds. cbn.
        unfold MAX_MESSAGES_BEFORE_LOCK. lia.
      * apply bounding_bind; [now apply bounding_setApp | intros _].
        apply bounding_request. constructor; [exact I | constructor].
    + eapply bounding_tryCatch; [| intros e; now apply bounding_setApp | exact Hw].
      apply bounding_bind; [| intros _; now apply bounding_setApp].
      apply bounding_request. constructor; [exact I |]. constructor; [| constructor].
      cbn. destruct Hw as [[Hlow _] _]. unfold inBounds. cbn. lia.
  - eapply bounding_tryCatch; [| intros e; now apply bounding_setApp | exact Hw].
    apply bounding_bind; [| intros _; now apply bounding_setApp].
    apply bounding_request. constructor; [exact I | constructor].
Qed.

Lemma bounding_handleMasterForceLogout :
  bounding (handleMasterForceLogout appId forceSentText forceErrorText).
Proof.
  unfold handleMasterForceLogout. apply bounding_getWorld. intros w Hw.
  destruct (negb _ || negb _); [exact Hw |].
  eapply bounding_tryCatch; [| intros e; now apply bounding_setApp | exact Hw].
  apply bounding_bind; [| intros _; now apply bounding_setApp].
  apply bounding_identifier, bounding_request. constructor; [exact I | constructor].
Qed.

Lemma bounding_observeStatus : bounding (observeStatus appId).
Proof.
  unfold observeStatus. apply bounding_getWorld. intros w Hw.
  destruct (negb _ || _ || _); [exact Hw |].
  unfold statusSnapshot.
  eapply (bounding_getWorld _ _ w Hw). Unshelve.
  intros w0 Hw0.
  destruct (documents (firestore w) !! getStatusDocPath appId (Some HARDCODED_CLIENT_ID))
    as [status |] eqn:E.
  - eapply bounding_bind; [| intros _ | exact Hw0].
    + apply bounding_setClientStatus. destruct Hw as [_ Hdocs]. exact (Hdocs _ _ E).
    + destruct (isRole _ _ && forceLogout status); [| apply bounding_ret].
      unfold unawaited. apply bounding_bind; [apply bounding_consoleLog | intros _].
      apply bounding_tryCatch; [apply bounding_handleLogout | intros e; apply bounding_ret].
  - eapply bounding_setClientStatus; [| exact Hw0].
    unfold inBounds, noStatus, MAX_MESSAGES_BEFORE_LOCK. cbn. lia.
Qed.

Lemma bounding_elapse (ms : N) : bounding (elapse appId ms).
Proof.
  apply bounding_frame. intros w. unfold after, elapse, bind, getWorld, modify.
  destruct (fireDue_frame (clock w + ms) (timers w) w) as [Hs Hc]. unfold after in Hs, Hc.
  destruct (fireDue appId (clock w + ms) (timers w) w) as [[[] | e] w1]; cbn in *; auto.
Qed.

Lemma bounding_dispatch (e : Event) : bounding (handle e).
Proof.
  destruct e as [user | | | | | s | | | | ms]; cbn [dispatch].
  - apply bounding_frame. intros w. now destruct user.
  - apply bounding_observeStatus.
  - apply bounding_handleLogin.
  - apply bounding_bind; [now apply bounding_frame | intros w0; apply bounding_handleLogout].
  - apply bounding_handleMasterForceLogout.
  - now apply bounding_setApp.
  - apply bounding_handleSendMessage.
  - apply bounding_frame. intros w. unfold after, handleTouchStart, bind, getWorld.
    now destruct (negb _).
  - apply bounding_frame. intros w. unfold after, handleTouchEnd, bind, getWorld.
    destruct (negb _); [now split |]. now destruct (touchTimerRef (app w)).
  - apply bounding_elapse.
Qed.

(** X23. The counters stay within their bounds.  If the counter the
    session holds and the counter of every status document lie between 0
    and [MAX_MESSAGES_BEFORE_LOCK], they still do after every sequence of
    events, whatever the store answers: the number of messages left that
    the page of the master shows (line 423) is never negative and never
    more than the limit. *)
Theorem counters_stay_in_bounds (es : list Event) (w : World) :
  countersInBounds w -> countersInBounds (go es w).
Proof.
  revert w. induction es as [| e rest IH]; intros w Hw; cbn [run].
  - exact Hw.
  - apply IH. now apply bounding_dispatch.
Qed.

End Sequences.

Lemma counters_stay_in_bounds_sample :
  countersInBounds
    (run "app" "limit reached" "send error: " "logout requested" "logout error: "
         [SubmitMessage; StatusSnapshot; ChangeInput "again"; SubmitMessage;
          StatusSnapshot; ClickLogin; TimePasses 10%N; ClickForceLogout]
         (clientWorld " hi " (sampleStatus 1 false))).
Proof.
  apply counters_stay_in_bounds. split.
  - vm_compute. split; discriminate.
  - intros path st H.
    change (documents (firestore (clientWorld " hi " (sampleStatus 1 false))))
      with ({[ getStatusDocPath "app" (Some HARDCODED_CLIENT_ID) := sampleStatus 1 false ]}
            : gmap string ClientStatus) in H.
    apply lookup_singleton_Some in H as [_ <-].
    vm_compute. split; discriminate.
Defined.

(** ** Sessions without identity, and master sessions *)

Section Roles.

Variables appId limitReachedText sendErrorText forceSentText forceErrorText : string.

Local Abbreviation go :=
  (run appId limitReachedText sendErrorText forceSentText forceErrorText).
Local Abbreviation handle :=
  (dispatch appId limitReachedText sendErrorText forceSentText forceErrorText).

Lemma fire_one_session (t : Timer) (w : World) :
  let m := (modify (fun w => withClock
                        (withTimers w (filter (fun u => timerId u <> timerId t) (timers w))
                                    (nextTimerId w))
                        (N.max (clock w) (due t))) ;;
            detached (touchTimerExpired appId (env t))) in
  completion m w = Normal tt
  /\ userId (app (after m w)) = None /\ userRole (app (after m w)) = None.
Proof.
  cbv zeta. unfold completion, after, bind, modify.
  rewrite detached_normal by (unfold completion; now rewrite touchTimerExpired_eq).
  cbn [fst snd]. unfold after at 1 2. rewrite touchTimerExpired_eq. cbn [snd].
  split; [reflexivity |]. split; apply handleLogout_session.
Qed.

Lemma fireDue_session (target : N) (ts : list Timer) (w : World) :
  let w' := after (fireDue appId target ts) w in
  app w' = app w \/ (userId (app w') = None /\ userRole (app w') = None).
Proof.
  cbv zeta. revert w. induction ts as [| t rest IH]; intros w; [now left |].
  assert (Hstep : exists w1,
            after (fireDue appId target (t :: rest)) w = after (fireDue appId target rest) w1
            /\ (w1 = w \/ (userId (app w1) = None /\ userRole (app w1) = None))).
  { cbn [fireDue]. unfold after. unfold bind at 1.
    destruct (N.leb (due t) target).
    - destruct (fire_one_session t w) as (Hn & Hu & Hr).
      unfold completion, after in Hn, Hu, Hr.
      match goal with
      | |- context [match ?m w with _ => _ end] => destruct (m w) as [[[] | e] w1]
      end; cbn in Hn, Hu, Hr; [| discriminate].
      exists w1. auto.
    - exists w. unfold ret. auto. }
  destruct Hstep as (w1 & -> & [-> | Hout]); [apply IH |].
  destruct (IH w1) as [Hsame | Hout']; [rewrite Hsame | ]; auto.
Qed.

Lemma elapse_session (ms : N) (w : World) :
  let w' := after (elapse appId ms) w in
  firestore w' = firestore w
  /\ (app w' = app w \/ (userId (app w') = None /\ userRole (app w') = None)).
Proof.
  cbv zeta. unfold after, elapse, bind, getWorld, modify.
  destruct (fireDue_frame appId (clock w + ms) (timers w) w) as [Hs _].
  pose proof (fireDue_session (clock w + ms) (timers w) w) as Ha.
  cbv zeta in Ha. unfold after in Hs, Ha.
  destruct (fireDue appId (clock w + ms) (timers w) w) as [[[] | e] w1]; cbn in *; auto.
Qed.

(** One event on a session without identity. *)
Lemma signed_out_step (e : Event) (w : World) :
  userId (app w) = None -> userRole (app w) = None -> isSignIn e = false ->
  let w' := after (handle e) w in
  firestore w' = firestore w /\ userId (app w') = None /\ userRole (app w') = None.
Proof.
  intros Hu Hr He. cbv zeta.
  destruct (signed_out_session_is_inert appId limitReachedText sendErrorText
              forceSentText forceErrorText w Hu Hr) as (Hsend & Hlogin & Hforce & Hobs).
  destruct e as [[u |] | | | | | s | | | | ms]; cbn [dispatch]; try discriminate.
  - repeat split.
  - unfold after. rewrite Hobs. auto.
  - unfold after. rewrite Hlogin. auto.
  - unfold after, bind, getWorld. cbv beta iota.
    split; [apply handleLogout_frame |].
    destruct (handleLogout_session appId (closureOf (app w)) w) as (_ & H1 & H2 & _). auto.
  - unfold after. rewrite Hforce. auto.
  - repeat split; assumption.
  - unfold after. rewrite Hsend. auto.
  - unfold after, handleTouchStart, bind, getWorld. rewrite Hr. auto.
  - unfold after. rewrite handleTouchEnd_other by (rewrite Hr; discriminate). auto.
  - destruct (elapse_session ms w) as [Hs [Ha | Ha]]; cbv zeta in *.
    + rewrite Hs, Ha. auto.
    + rewrite Hs. tauto.
Qed.

(** X24. Once a session has dropped its identity (after any logout) it
    never writes again: along every sequence of events in which the service
    does not report a signed-in user, whatever is clicked, typed or
    submitted and whatever timers fire, the store stays exactly as it was
    and the session stays without identity and role. *)
Theorem signed_out_session_never_writes (es : list Event) (w : World) :
  userId (app w) = None -> userRole (app w) = None ->
  forallb (fun e => negb (isSignIn e)) es = true ->
  firestore (go es w) = firestore w
  /\ userId (app (go es w)) = None /\ userRole (app (go es w)) = None.
Proof.
  revert w. induction es as [| e rest IH]; intros w Hu Hr Hes; cbn [run].
  - auto.
  - cbn [forallb] in Hes. apply andb_true_iff in Hes as [He Hrest].
    apply negb_true_iff in He.
    destruct (signed_out_step e w Hu Hr He) as (Hs & Hu1 & Hr1). cbv zeta in *.
    destruct (IH _ Hu1 Hr1 Hrest) as (Hs2 & Hu2 & Hr2).
    split; [congruence | auto].
Qed.

Lemma sameButForce_refl (d : option ClientStatus) : sameButForce d d.
Proof. destruct d; cbn; auto. Qed.

Lemma sameButForce_trans (d1 d2 d3 : option ClientStatus) :
  sameButForce d1 d2 -> sameButForce d2 d3 -> sameButForce d1 d3.
Proof.
  destruct d1, d2, d3; cbn; try tauto.
  intros (? & ? & ?) (? & ? & ?). repeat split; congruence.
Qed.

(** One event on a session that is not the client. *)
Lemma not_client_step (e : Event) (w : World) :
  userRole (app w) <> Some client -> isAuthChange e = false ->
  let w' := after (handle e) w in
  userRole (app w') <> Some client
  /\ (forall path,
        sameButForce (documents (firestore w) !! path) (documents (firestore w') !! path)).
Proof.
  intros Hr He. cbv zeta.
  assert (Hno : isRole (userRole (app w)) client = false)
    by (unfold isRole; now rewrite bool_decide_eq_false_2).
  assert (Hdocs : forall w' : World,
            documents (firestore w') = documents (firestore w) ->
            userRole (app w') = userRole (app w) ->
            userRole (app w') <> Some client
            /\ (forall path, sameButForce (documents (firestore w) !! path)
                                          (documents (firestore w') !! path))).
  { intros w' Hs Hrole. rewrite Hs, Hrole. split; [exact Hr |].
    intros path. apply sameButForce_refl. }
  assert (Hsame : forall w' : World,
            firestore w' = firestore w -> userRole (app w') = userRole (app w) ->
            userRole (app w') <> Some client
            /\ (forall path, sameButForce (documents (firestore w) !! path)
                                          (documents (firestore w') !! path))).
  { intros w' Hs Hrole. rewrite Hs, Hrole. split; [exact Hr |].
    intros path. apply sameButForce_refl. }
  destruct e as [user | | | | | s | | | | ms]; cbn [dispatch]; try discriminate.
  - apply Hsame; [apply observeStatus_keeps_store |].
    unfold after, observeStatus, bind, getWorld. cbv beta iota zeta.
    destruct (negb _ || _ || _); [reflexivity |].
    unfold statusSnapshot, bind, getWorld. cbv beta iota zeta.
    destruct (documents (firestore w) !! _); [| reflexivity].
    cbn [setClientStatus setApp modify]. cbv beta iota. rewrite Hno. reflexivity.
  - unfold after. rewrite login_cases. cbv zeta.
    destruct (negb _ || _); [now apply Hsame |]. rewrite Hno.
    unfold tryCatch, bind, request, consoleLog, consoleError, modify.
    destruct (faults w) as [| [m |] rest]; now apply Hsame.
  - unfold after, bind, getWorld. cbv beta iota.
    destruct (handleLogout_session appId (closureOf (app w)) w) as (_ & _ & Hrole & _).
    destruct (handleLogout_frame appId (closureOf (app w)) w) as [Hs _].
    cbv zeta in Hrole, Hs. unfold after in Hrole, Hs. split.
    + rewrite Hrole. discriminate.
    + rewrite Hs. intros path. apply sameButForce_refl.
  - unfold after. rewrite force_cases.
    destruct (negb _ || negb _); [now apply Hsame |].
    destruct (documents (firestore w) !! getStatusDocPath appId (Some HARDCODED_CLIENT_ID))
      as [old |] eqn:E;
      destruct (faults w) as [| [m |] rest]; cbn; try (now apply Hsame).
    all: split; [exact Hr |]; intros path;
      destruct (decide (getStatusDocPath appId (Some HARDCODED_CLIENT_ID) = path))
        as [<- | Hne];
      [rewrite lookup_insert_eq, E; cbn; auto
      | rewrite lookup_insert_ne by exact Hne; apply sameButForce_refl].
  - now apply Hsame.
  - unfold after. rewrite send_cases. cbv zeta. rewrite Hno. cbn [andb].
    destruct (negb _ || _ || _ || _); [now apply Hsame |].
    unfold tryCatch, bind, request, setNewMessage, setApp, modify.
    destruct (faults w) as [| [m |] rest]; now apply Hdocs.
  - unfold after, handleTouchStart, bind, getWorld. rewrite Hno. now apply Hsame.
  - unfold after. rewrite handleTouchEnd_other by exact Hr. now apply Hsame.
  - destruct (elapse_session ms w) as [Hs [Ha | [_ Ha]]]; cbv zeta in *.
    + apply Hsame; [exact Hs | now rewrite Ha].
    + rewrite Hs, Ha. split; [discriminate |]. intros path. apply sameButForce_refl.
Qed.

(** X25. A session that is not the client can change of a status document
    only its [forceLogout].  Along every sequence of events in which the
    service reports no change of user, a master session (or one without
    role) creates and removes no status document, and leaves [isLoggedIn],
    [msgCount] and [lastLogin] of every status document as they were. *)
Theorem master_changes_only_the_flag (es : list Event) (w : World) (path : string) :
  userRole (app w) <> Some client ->
  forallb (fun e => negb (isAuthChange e)) es = true ->
  sameButForce (documents (firestore w) !! path) (documents (firestore (go es w)) !! path).
Proof.
  revert w. induction es as [| e rest IH]; intros w Hr Hes; cbn [run].
  - apply sameButForce_refl.
  - cbn [forallb] in Hes. apply andb_true_iff in Hes as [He Hrest].
    apply negb_true_iff in He.
    destruct (not_client_step e w Hr He) as [Hr1 Hdocs]. cbv zeta in *.
    eapply sameButForce_trans; [apply Hdocs | now apply IH].
Qed.

End Roles.

Lemma signed_out_session_never_writes_sample :
  let w := after (handleLogout "app" (closureOf (app (clientWorld "hi" (sampleStatus 1 false)))))
                 (clientWorld "hi" (sampleStatus 1 false)) in
  firestore
    (run "app" "limit reached" "send error: " "logout requested" "logout error: "
         [SubmitMessage; ClickLogin; ChangeInput "more"; SubmitMessage; StatusSnapshot;
          PressHold; TimePasses 4000%N; ClickForceLogout] w)
  = firestore w.
Proof.
  cbv zeta.
  destruct (signed_out_session_never_writes "app" "limit reached" "send error: "
              "logout requested" "logout error: "
              [SubmitMessage; ClickLogin; ChangeInput "more"; SubmitMessage; StatusSnapshot;
               PressHold; TimePasses 4000%N; ClickForceLogout]
              (after (handleLogout "app"
                        (closureOf (app (clientWorld "hi" (sampleStatus 1 false)))))
                     (clientWorld "hi" (sampleStatus 1 false)))) as [Hs _].
  - reflexivity.
  - reflexivity.
  - reflexivity.
  - exact Hs.
Defined.

Lemma master_changes_only_the_flag_sample :
  sameButForce
    (Some (sampleStatus 2 false))
    (documents
       (firestore
          (run "app" "limit reached" "send error: " "logout requested" "logout error: "
               [SubmitMessage; ClickForceLogout; ClickLogin; StatusSnapshot; ClickLogout]
               (masterWorld " hi " (sampleStatus 2 false))))
     !! getStatusDocPath "app" (Some HARDCODED_CLIENT_ID)).
Proof.
  apply (master_changes_only_the_flag "app" "limit reached" "send error: "
           "logout requested" "logout error: "
           [SubmitMessage; ClickForceLogout; ClickLogin; StatusSnapshot; ClickLogout]
           (masterWorld " hi " (sampleStatus 2 false))
           (getStatusDocPath "app" (Some HARDCODED_CLIENT_ID))).
  - vm_compute. discriminate.
  - reflexivity.
Defined.
